(** * express-library: the Author and Genre controllers

    A shallow embedding of [controllers/authorController.js] and of the
    Genre controller, together with the part of their collaborators
    (express-validator chains, Mongoose model statics, the Express response
    object) that the handlers call.

    Conventions of the embedding
    - a JavaScript string is a [string]: a sequence of code units below 256;
    - an identifier is a well-formed ObjectId, a 12-byte number;
    - a handler is a computation over a [World]: the three collections and
      the trace of the calls the handler made, in program order;
    - [null] and [undefined] are both [None]. *)

From Stdlib Require Import String Ascii List Bool Arith NArith ZArith Lia.
From Stdlib Require Import Sorted Permutation HexadecimalString.
Import ListNotations.
Local Open Scope string_scope.
Local Open Scope list_scope.

(* ================================================================= *)
(** ** The sanitizers and validators used by the chains (validator.js) *)

Module Validator.

(** The code units below 256 that the regular expression class [\s]
    accepts: TAB, LF, VT, FF, CR, SPACE and NO-BREAK SPACE. *)
Definition isSpace (c : ascii) : bool :=
  let n := nat_of_ascii c in
  (((9 <=? n) && (n <=? 13)) || (n =? 32) || (n =? 160))%nat.

(** [str.replace(/^\s+/g, '')] *)
Fixpoint ltrim (s : string) : string :=
  match s with
  | EmptyString => EmptyString
  | String c r => if isSpace c then ltrim r else s
  end.

(** The backwards loop of [rtrim]: drop the maximal whitespace suffix. *)
Fixpoint rtrim (s : string) : string :=
  match s with
  | EmptyString => EmptyString
  | String c r =>
      match rtrim r with
      | EmptyString => if isSpace c then EmptyString else String c EmptyString
      | r' => String c r'
      end
  end.

(** [trim(str) = rtrim(ltrim(str))] *)
Definition trim (s : string) : string := rtrim (ltrim s).

(** [escape] replaces the characters & double-quote ' < > / \ ` by HTML
    entities.  The source runs eight global replacements, [&] first; no
    replacement text contains a character replaced later, so the result
    is the character-wise substitution below. *)
Definition escape_char (c : ascii) : string :=
  match nat_of_ascii c with
  | 38 => "&amp;"
  | 34 => "&quot;"
  | 39 => "&#x27;"
  | 60 => "&lt;"
  | 62 => "&gt;"
  | 47 => "&#x2F;"
  | 92 => "&#x5C;"
  | 96 => "&#96;"
  | _ => String c EmptyString
  end.

Fixpoint escape (s : string) : string :=
  match s with
  | EmptyString => EmptyString
  | String c r => (escape_char c ++ escape r)%string
  end.

(** [isLength(str, {min})]: on strings of code units below 256 there is
    neither a surrogate pair nor a variation selector to discount. *)
Definition isLength (min : nat) (s : string) : bool :=
  (min <=? String.length s)%nat.

Definition isAlnumChar (c : ascii) : bool :=
  let n := nat_of_ascii c in
  (((48 <=? n) && (n <=? 57)) || ((65 <=? n) && (n <=? 90))
   || ((97 <=? n) && (n <=? 122)))%nat.

Fixpoint allAlnum (s : string) : bool :=
  match s with
  | EmptyString => true
  | String c r => isAlnumChar c && allAlnum r
  end.

(** [isAlphanumeric(str)] with the default locale: [/^[0-9A-Z]+$/i]. *)
Definition isAlphanumeric (s : string) : bool :=
  match s with
  | EmptyString => false
  | _ => allAlnum s
  end.

(** One record of [validationResult(req).array()]; only the field path and
    the message are kept. *)
Record FieldError := mkFieldError { path : string; msg : string }.

(** A validator of a chain: it adds its message when the test fails and
    lets the chain go on (no chain of the controllers uses [bail]). *)
Definition check (field message : string) (ok : bool) : list FieldError :=
  if ok then [] else [mkFieldError field message].

End Validator.
Import Validator.

(* ================================================================= *)
(** ** Documents and collections *)

Definition ObjectId := N.
Definition Date := Z.
Bind Scope N_scope with ObjectId.
Bind Scope Z_scope with Date.

Record AuthorDoc := mkAuthor {
  a_id : ObjectId;
  a_first_name : string;
  a_family_name : string;
  a_date_of_birth : option Date;
  a_date_of_death : option Date }.

Record GenreDoc := mkGenre { g_id : ObjectId; g_name : string }.

(** Modelled from the spec: the Book model is not part of the controllers;
    a Book "holds a reference to exactly one Author and one Genre" and has
    the [title] and [summary] the projections name. *)
Record BookDoc := mkBook {
  b_id : ObjectId;
  b_title : string;
  b_summary : string;
  b_author : ObjectId;
  b_genre : ObjectId }.

(** A projected Book: [_id] is always kept, a path only when selected. *)
Record BookView := mkBookView {
  bv_id : ObjectId;
  bv_title : option string;
  bv_summary : option string }.

Record Store := mkStore {
  authors : list AuthorDoc;
  genres : list GenreDoc;
  books : list BookDoc }.

(** The external functions the controllers rely on and whose code is not
    theirs: the ISO-8601 test and the date conversion of validator.js, and
    the [url] virtuals of the two models, "derived deterministically from
    the identifier". *)
Class Collaborators := {
  isISO8601 : string -> bool;
  toDate : string -> option Date;
  author_url : ObjectId -> string;
  genre_url : ObjectId -> string }.

(* ================================================================= *)
(** ** Requests, responses and the handler monad *)

(** [req.body] as the HTML forms post it, [req.params.id], and the
    identifier that [new Author(...)] / [new Genre(...)] generates when the
    handler gives none. *)
Record Body := mkBody {
  name : string;
  first_name : string;
  family_name : string;
  date_of_birth : string;
  date_of_death : string;
  authorid : ObjectId;
  genreid : ObjectId }.

Record Request := mkRequest {
  params_id : ObjectId;
  body : Body;
  generated_id : ObjectId }.

Inductive Err :=
| HttpError (message : string) (status : N)
| TypeError (message : string)
| MongoServerError (code : N).

(** The second argument of [res.render], by template. *)
Inductive Locals :=
| author_list_locals (title : string) (author_list : list AuthorDoc)
| author_detail_locals (title : string) (author : option AuthorDoc)
    (author_books : list BookView)
| author_form_locals (title : string) (author : option AuthorDoc)
    (errors : option (list FieldError))
| author_delete_locals (title : string) (author : option AuthorDoc)
    (author_books : list BookView)
| genre_list_locals (title : string) (genre_list : list GenreDoc)
| genre_detail_locals (title : string) (genre : option GenreDoc)
    (genre_books : list BookView)
| genre_form_locals (title : string) (genre : option GenreDoc)
    (errors : option (list FieldError))
| genre_delete_locals (title : string) (genre : option GenreDoc)
    (genre_books : list BookView).

(** The calls a handler makes on the store, on [res] and on [next]. *)
Inductive Event :=
| Author_find_sort_family_name
| Author_findById (id : ObjectId)
| Author_findOne (first family : string)
| Author_save (doc : AuthorDoc)
| Author_findByIdAndDelete (id : ObjectId)
| Author_findByIdAndUpdate (id : ObjectId) (doc : AuthorDoc)
| Genre_find
| Genre_findById (id : ObjectId)
| Genre_findOne (nm : string)
| Genre_save (doc : GenreDoc)
| Genre_findByIdAndDelete (id : ObjectId)
| Genre_findByIdAndUpdate (id : ObjectId) (doc : GenreDoc)
| Book_find_author (id : ObjectId) (projection : list string)
| Book_find_genre (id : ObjectId) (projection : list string)
| res_render (view : string) (locals : Locals)
| res_redirect (url : string)
| next (err : Err).

Record World := mkWorld { store : Store; trace : list Event }.

Inductive Outcome (A : Type) :=
| Ok (a : A)
| Throw (e : Err).
Arguments Ok {A} a.
Arguments Throw {A} e.

Definition M (A : Type) := World -> Outcome A * World.

Definition ret {A} (a : A) : M A := fun w => (Ok a, w).

Definition bind {A B} (m : M A) (k : A -> M B) : M B :=
  fun w => match m w with
           | (Ok a, w') => k a w'
           | (Throw e, w') => (Throw e, w')
           end.

Notation "x <- m ;; k" := (bind m (fun x => k))
  (at level 61, m at next level, right associativity).
Notation "m ;; k" := (bind m (fun _ => k))
  (at level 61, right associativity).

Definition throw {A} (e : Err) : M A := fun w => (Throw e, w).

Definition emit (ev : Event) : M unit :=
  fun w => (Ok tt, mkWorld (store w) (trace w ++ [ev])).

Definition getStore : M Store := fun w => (Ok (store w), w).

Definition putStore (s : Store) : M unit :=
  fun w => (Ok tt, mkWorld s (trace w)).

(** [express-async-handler]: a rejection of the handler's promise is handed
    to [next]. *)
Definition asyncHandler (m : M unit) : M unit :=
  fun w => match m w with
           | (Throw e, w') => emit (next e) w'
           | r => r
           end.

(** Running a handler against a store: the store it leaves and the calls
    it made. *)
Definition handle (h : M unit) (s : Store) : Store * list Event :=
  let w := snd (h (mkWorld s [])) in (store w, trace w).

(* ================================================================= *)
(** ** The model statics (Mongoose) over the collections *)

(** [deleteOne]: the first document matching the filter is removed. *)
Fixpoint deleteOne {A} (p : A -> bool) (l : list A) : list A :=
  match l with
  | [] => []
  | x :: r => if p x then r else x :: deleteOne p r
  end.

(** [updateOne] with a [$set] of every path of [d]: the first document
    matching the filter becomes [d]; nothing is inserted when none matches. *)
Fixpoint updateOne {A} (p : A -> bool) (d : A) (l : list A) : list A :=
  match l with
  | [] => []
  | x :: r => if p x then d :: r else x :: updateOne p d r
  end.

Definition isEmpty {A} (l : list A) : bool :=
  match l with [] => true | _ => false end.

Module Author.

Definition hasId (id : ObjectId) (d : AuthorDoc) : bool := N.eqb (a_id d) id.

Definition hasName (first family : string) (d : AuthorDoc) : bool :=
  String.eqb (a_first_name d) first && String.eqb (a_family_name d) family.

(** [sort({ family_name: 1 })]: ascending, strings compared code unit by
    code unit. *)
Fixpoint insert (d : AuthorDoc) (l : list AuthorDoc) : list AuthorDoc :=
  match l with
  | [] => [d]
  | x :: r =>
      if String.leb (a_family_name d) (a_family_name x) then d :: l
      else x :: insert d r
  end.

Fixpoint sort (l : list AuthorDoc) : list AuthorDoc :=
  match l with
  | [] => []
  | x :: r => insert x (sort r)
  end.

Definition find_sort_family_name : M (list AuthorDoc) :=
  emit Author_find_sort_family_name ;;
  s <- getStore ;;
  ret (sort (authors s)).

Definition findById (id : ObjectId) : M (option AuthorDoc) :=
  emit (Author_findById id) ;;
  s <- getStore ;;
  ret (find (hasId id) (authors s)).

Definition findOne (first family : string) : M (option AuthorDoc) :=
  emit (Author_findOne first family) ;;
  s <- getStore ;;
  ret (find (hasName first family) (authors s)).

(** [doc.save()] of a new document: an insert; the unique index on [_id]
    refuses an identifier already in the collection (error E11000). *)
Definition save (d : AuthorDoc) : M unit :=
  emit (Author_save d) ;;
  s <- getStore ;;
  match find (hasId (a_id d)) (authors s) with
  | Some _ => throw (MongoServerError 11000)
  | None => putStore (mkStore (authors s ++ [d]) (genres s) (books s))
  end.

Definition findByIdAndDelete (id : ObjectId) : M (option AuthorDoc) :=
  emit (Author_findByIdAndDelete id) ;;
  s <- getStore ;;
  putStore (mkStore (deleteOne (hasId id) (authors s)) (genres s) (books s)) ;;
  ret (find (hasId id) (authors s)).

(** With the default options the document as it was before the update is
    returned, [null] when no document has the identifier. *)
Definition findByIdAndUpdate (id : ObjectId) (d : AuthorDoc)
  : M (option AuthorDoc) :=
  emit (Author_findByIdAndUpdate id d) ;;
  s <- getStore ;;
  putStore (mkStore (updateOne (hasId id) d (authors s)) (genres s) (books s)) ;;
  ret (find (hasId id) (authors s)).

Definition url `{Collaborators} (d : AuthorDoc) : string := author_url (a_id d).

End Author.

Module Genre.

Definition hasId (id : ObjectId) (d : GenreDoc) : bool := N.eqb (g_id d) id.

Definition hasName (nm : string) (d : GenreDoc) : bool :=
  String.eqb (g_name d) nm.

Definition find_all : M (list GenreDoc) :=
  emit Genre_find ;;
  s <- getStore ;;
  ret (genres s).

Definition findById (id : ObjectId) : M (option GenreDoc) :=
  emit (Genre_findById id) ;;
  s <- getStore ;;
  ret (find (hasId id) (genres s)).

Definition findOne (nm : string) : M (option GenreDoc) :=
  emit (Genre_findOne nm) ;;
  s <- getStore ;;
  ret (find (hasName nm) (genres s)).

Definition save (d : GenreDoc) : M unit :=
  emit (Genre_save d) ;;
  s <- getStore ;;
  match find (hasId (g_id d)) (genres s) with
  | Some _ => throw (MongoServerError 11000)
  | None => putStore (mkStore (authors s) (genres s ++ [d]) (books s))
  end.

Definition findByIdAndDelete (id : ObjectId) : M (option GenreDoc) :=
  emit (Genre_findByIdAndDelete id) ;;
  s <- getStore ;;
  putStore (mkStore (authors s) (deleteOne (hasId id) (genres s)) (books s)) ;;
  ret (find (hasId id) (genres s)).

Definition findByIdAndUpdate (id : ObjectId) (d : GenreDoc)
  : M (option GenreDoc) :=
  emit (Genre_findByIdAndUpdate id d) ;;
  s <- getStore ;;
  putStore (mkStore (authors s) (updateOne (hasId id) d (genres s)) (books s)) ;;
  ret (find (hasId id) (genres s)).

Definition url `{Collaborators} (d : GenreDoc) : string := genre_url (g_id d).

End Genre.

Module Book.

Definition selects (projection : list string) (p : string) : bool :=
  existsb (String.eqb p) projection.

(** A projection keeps [_id] and the selected paths that exist. *)
Definition project (projection : list string) (b : BookDoc) : BookView :=
  mkBookView (b_id b)
    (if selects projection "title" then Some (b_title b) else None)
    (if selects projection "summary" then Some (b_summary b) else None).

Definition byAuthor (id : ObjectId) (b : BookDoc) : bool := N.eqb (b_author b) id.
Definition byGenre (id : ObjectId) (b : BookDoc) : bool := N.eqb (b_genre b) id.

(** [Book.find({ author: id }, projection)] *)
Definition find_author (id : ObjectId) (projection : list string)
  : M (list BookView) :=
  emit (Book_find_author id projection) ;;
  s <- getStore ;;
  ret (map (project projection) (filter (byAuthor id) (books s))).

(** [Book.find({ genre: id }, projection)] *)
Definition find_genre (id : ObjectId) (projection : list string)
  : M (list BookView) :=
  emit (Book_find_genre id projection) ;;
  s <- getStore ;;
  ret (map (project projection) (filter (byGenre id) (books s))).

End Book.

(* ================================================================= *)
(** ** controllers/authorController.js *)

Section AuthorController.
Context `{Collaborators}.

(** [body('first_name').trim().isLength({ min: 1 }).escape()
      .withMessage(..).isAlphanumeric().withMessage(..)]:
    [withMessage] names the message of the validator before it, so the
    first message is that of [isLength]; [isAlphanumeric] sees the escaped
    value.  The chain yields the sanitized value and its errors. *)
Definition first_name_chain (v : string) : string * list FieldError :=
  let v1 := trim v in
  let e1 := check "first_name" "First name must be specified" (isLength 1 v1) in
  let v2 := escape v1 in
  let e2 := check "first_name" "First name has non-alphanumeric characters"
              (isAlphanumeric v2) in
  (v2, e1 ++ e2).

Definition family_name_chain (v : string) : string * list FieldError :=
  let v1 := trim v in
  let e1 := check "family_name" "Family name must be specified." (isLength 1 v1) in
  let v2 := escape v1 in
  let e2 := check "family_name" "Family name has non-alphanumeric characters."
              (isAlphanumeric v2) in
  (v2, e1 ++ e2).

(** [body(field, message).optional({ values: 'falsy' }).isISO8601().toDate()]:
    a falsy value (the empty string) skips the chain and is cast to [null]
    by the Date path of the schema. *)
Definition date_chain (field message v : string) : option Date * list FieldError :=
  match v with
  | EmptyString => (None, [])
  | _ => (toDate v, check field message (isISO8601 v))
  end.

(** The four chains of [author_create_post] and [author_update_post], in
    the order of the middleware array. *)
Definition author_errors (b : Body) : list FieldError :=
  snd (first_name_chain (first_name b))
  ++ snd (family_name_chain (family_name b))
  ++ snd (date_chain "date_of_birth" "invalid date of birth" (date_of_birth b))
  ++ snd (date_chain "date_of_death" "invalid date of death" (date_of_death b)).

(** [new Author({ first_name: req.body.first_name, ... })] on the
    sanitized body, with identifier [id]. *)
Definition new_Author (id : ObjectId) (b : Body) : AuthorDoc :=
  mkAuthor id
    (fst (first_name_chain (first_name b)))
    (fst (family_name_chain (family_name b)))
    (fst (date_chain "date_of_birth" "invalid date of birth" (date_of_birth b)))
    (fst (date_chain "date_of_death" "invalid date of death" (date_of_death b))).

Definition author_list (req : Request) : M unit :=
  asyncHandler (
    allAuthors <- Author.find_sort_family_name ;;
    emit (res_render "author_list" (author_list_locals "Author List" allAuthors))).

Definition author_detail (req : Request) : M unit :=
  asyncHandler (
    author <- Author.findById (params_id req) ;;
    allBooksByAuthor <- Book.find_author (params_id req) ["title"; "summary"] ;;
    match author with
    | None => emit (next (HttpError "Author not found" 404))
    | Some _ =>
        emit (res_render "author_detail"
                (author_detail_locals "Author detail" author allBooksByAuthor))
    end).

Definition author_create_get (req : Request) : M unit :=
  asyncHandler (
    emit (res_render "author_form" (author_form_locals "Create Author" None None))).

Definition author_create_post (req : Request) : M unit :=
  asyncHandler (
    let errors := author_errors (body req) in
    let author := new_Author (generated_id req) (body req) in
    if negb (isEmpty errors) then
      emit (res_render "author_form"
              (author_form_locals "Create Author" (Some author) (Some errors)))
    else
      authorExists <- Author.findOne (a_first_name author) (a_family_name author) ;;
      match authorExists with
      | Some existing => emit (res_redirect (Author.url existing))
      | None =>
          Author.save author ;;
          emit (res_redirect (Author.url author))
      end).

(** No [return] follows the redirect: the render call is reached too. *)
Definition author_delete_get (req : Request) : M unit :=
  asyncHandler (
    author <- Author.findById (params_id req) ;;
    allBooksByAuthor <- Book.find_author (params_id req) ["title"; "summary"] ;;
    match author with
    | None => emit (res_redirect "/catalog/authors")
    | Some _ => ret tt
    end ;;
    emit (res_render "author_delete"
            (author_delete_locals "Delete Author" author allBooksByAuthor))).

Definition author_delete_post (req : Request) : M unit :=
  asyncHandler (
    author <- Author.findById (params_id req) ;;
    allBooksByAuthor <- Book.find_author (params_id req) ["title"; "summary"] ;;
    if (0 <? List.length allBooksByAuthor)%nat then
      emit (res_render "author_delete"
              (author_delete_locals "Delete Author" author allBooksByAuthor))
    else
      Author.findByIdAndDelete (authorid (body req)) ;;
      emit (res_redirect "/catalog/authors")).

Definition author_update_get (req : Request) : M unit :=
  asyncHandler (
    author <- Author.findById (params_id req) ;;
    match author with
    | None => emit (next (HttpError "Author not found" 404))
    | Some _ =>
        emit (res_render "author_form"
                (author_form_locals "Update Author" author None))
    end).

Definition author_update_post (req : Request) : M unit :=
  asyncHandler (
    let errors := author_errors (body req) in
    let updatedAuthor := new_Author (params_id req) (body req) in
    if negb (isEmpty errors) then
      emit (res_render "author_form"
              (author_form_locals "Update Author" (Some updatedAuthor) (Some errors)))
    else
      Author.findByIdAndUpdate (params_id req) updatedAuthor ;;
      emit (res_redirect (Author.url updatedAuthor))).

End AuthorController.

(* ================================================================= *)
(** ** The Genre controller *)

Section GenreController.
Context `{Collaborators}.

(** [body('name', 'Genre name must contain at least 3 characters')
      .trim().isLength({ min: 3 }).escape()] *)
Definition genre_create_chain (v : string) : string * list FieldError :=
  let v1 := trim v in
  let e1 := check "name" "Genre name must contain at least 3 characters"
              (isLength 3 v1) in
  (escape v1, e1).

(** [body('name', 'Invalid Genre Value').trim().isLength({ min: 1 }).escape()] *)
Definition genre_update_chain (v : string) : string * list FieldError :=
  let v1 := trim v in
  let e1 := check "name" "Invalid Genre Value" (isLength 1 v1) in
  (escape v1, e1).

Definition genre_list (req : Request) : M unit :=
  asyncHandler (
    allGenres <- Genre.find_all ;;
    emit (res_render "genre_list" (genre_list_locals "Genre List" allGenres))).

Definition genre_detail (req : Request) : M unit :=
  asyncHandler (
    genre <- Genre.findById (params_id req) ;;
    booksInGenre <- Book.find_genre (params_id req) ["title"; "summary"] ;;
    match genre with
    | None => emit (next (HttpError "Genre not found" 404))
    | Some _ =>
        emit (res_render "genre_detail"
                (genre_detail_locals "Genre Detail" genre booksInGenre))
    end).

Definition genre_create_get (req : Request) : M unit :=
  asyncHandler (
    emit (res_render "genre_form" (genre_form_locals "Create Genre" None None))).

Definition genre_create_post (req : Request) : M unit :=
  asyncHandler (
    let chain := genre_create_chain (name (body req)) in
    let errors := snd chain in
    let genre := mkGenre (generated_id req) (fst chain) in
    if negb (isEmpty errors) then
      emit (res_render "genre_form"
              (genre_form_locals "Create Genre" (Some genre) (Some errors)))
    else
      genreExists <- Genre.findOne (fst chain) ;;
      match genreExists with
      | Some existing => emit (res_redirect (Genre.url existing))
      | None =>
          Genre.save genre ;;
          emit (res_redirect (Genre.url genre))
      end).

Definition genre_delete_get (req : Request) : M unit :=
  asyncHandler (
    genre <- Genre.findById (params_id req) ;;
    booksInGenre <- Book.find_genre (params_id req) ["title"; "sumarry"] ;;
    match genre with
    | None => emit (res_redirect "/catalog/genre")
    | Some _ => ret tt
    end ;;
    emit (res_render "genre_delete"
            (genre_delete_locals "Delete Genre" genre booksInGenre))).

Definition genre_delete_post (req : Request) : M unit :=
  asyncHandler (
    genre <- Genre.findById (params_id req) ;;
    booksInGenre <- Book.find_genre (params_id req) ["title"; "sumarry"] ;;
    if (0 <? List.length booksInGenre)%nat then
      emit (res_render "genre_delete"
              (genre_delete_locals "Delete Genre" genre booksInGenre))
    else
      Genre.findByIdAndDelete (genreid (body req)) ;;
      emit (res_redirect "/catalog/genres")).

Definition genre_update_get (req : Request) : M unit :=
  asyncHandler (
    genre <- Genre.findById (params_id req) ;;
    match genre with
    | None => emit (res_redirect "/catalog/genres")
    | Some _ => ret tt
    end ;;
    emit (res_render "genre_form" (genre_form_locals "Update Genre" genre None))).

(** [updatedGenre.url] reads a property of the value the store returned:
    of [null] when no Genre has the identifier, which throws. *)
Definition genre_update_post (req : Request) : M unit :=
  asyncHandler (
    let chain := genre_update_chain (name (body req)) in
    let errors := snd chain in
    let genre := mkGenre (params_id req) (fst chain) in
    if negb (isEmpty errors) then
      emit (res_render "genre_form"
              (genre_form_locals "Update Genre" (Some genre) (Some errors)))
    else
      updatedGenre <- Genre.findByIdAndUpdate (params_id req) genre ;;
      match updatedGenre with
      | Some g => emit (res_redirect (Genre.url g))
      | None => throw (TypeError "Cannot read properties of null (reading 'url')")
      end).

End GenreController.

(* ================================================================= *)
(** ** A concrete environment, to run the handlers on sample requests *)

Definition isDigit (c : ascii) : bool :=
  let n := nat_of_ascii c in ((48 <=? n) && (n <=? 57))%nat.

(** Calendar dates written [YYYY-MM-DD], a fragment of ISO 8601. *)
Definition sample_isISO8601 (s : string) : bool :=
  match s with
  | String y1 (String y2 (String y3 (String y4 (String d1
      (String m1 (String m2 (String d2 (String a1 (String a2 EmptyString))))))))) =>
      isDigit y1 && isDigit y2 && isDigit y3 && isDigit y4
      && Ascii.eqb d1 "-" && isDigit m1 && isDigit m2
      && Ascii.eqb d2 "-" && isDigit a1 && isDigit a2
  | _ => false
  end.

Definition digits (s : string) : Z :=
  fold_left
    (fun acc c =>
       if isDigit c then (10 * acc + (Z.of_nat (nat_of_ascii c) - 48))%Z else acc)
    (list_ascii_of_string s) 0%Z.

(** The date as the number [YYYYMMDD]. *)
Definition sample_toDate (s : string) : option Date :=
  if sample_isISO8601 s then Some (digits s) else None.

Definition sample_hex (id : ObjectId) : string :=
  match id with
  | N0 => "0"
  | _ => HexadecimalString.NilEmpty.string_of_uint (N.to_hex_uint id)
  end.

#[local] Instance sample : Collaborators := {|
  isISO8601 := sample_isISO8601;
  toDate := sample_toDate;
  author_url := fun id => ("/catalog/author/" ++ sample_hex id)%string;
  genre_url := fun id => ("/catalog/genre/" ++ sample_hex id)%string |}.

Definition form (nm first family birth death : string) (aid gid : ObjectId) : Body :=
  mkBody nm first family birth death aid gid.

Definition emptyStore : Store := mkStore [] [] [].

(* ================================================================= *)
(** ** Vocabulary of the statements *)

(** Ascending order on [family_name]. *)
Definition family_le (a b : AuthorDoc) : Prop :=
  String.leb (a_family_name a) (a_family_name b) = true.

(** The natural key a Genre create submission is looked up by: the
    submitted name as the chain leaves it in [req.body.name]. *)
Definition genre_key (req : Request) : string :=
  fst (genre_create_chain (name (body req))).

(** The Books that reference an Author, resp. a Genre. *)
Definition books_of_author (s : Store) (id : ObjectId) : list BookDoc :=
  filter (Book.byAuthor id) (books s).

Definition books_of_genre (s : Store) (id : ObjectId) : list BookDoc :=
  filter (Book.byGenre id) (books s).

(** A catalogue of two Authors and two Genres in which one Book references
    the second Author and the first Genre. *)
Definition catalogue : Store :=
  mkStore
    [mkAuthor 1 "Ann" "Lee" None None; mkAuthor 2 "Bob" "Ray" None None]
    [mkGenre 5 "Fantasy"; mkGenre 6 "Horror"]
    [mkBook 9 "Dune" "Sand" 2 5].

(** Sample requests: a GET on the route of [pid]; a delete confirmation
    posted to the route of [pid] whose form names [aid] and [gid]; a Genre
    form and an Author form posted to the route of [pid], for which a new
    document would get the identifier [gen]. *)
Definition get (pid : ObjectId) : Request :=
  mkRequest pid (form "" "" "" "" "" 0 0) 0.

Definition post_delete (pid aid gid : ObjectId) : Request :=
  mkRequest pid (form "" "" "" "" "" aid gid) 0.

Definition post_genre (nm : string) (pid gen : ObjectId) : Request :=
  mkRequest pid (form nm "" "" "" "" 0 0) gen.

Definition post_author (first family birth death : string) (pid gen : ObjectId)
  : Request :=
  mkRequest pid (form "" first family birth death 0 0) gen.

(** Unfolding the monad: a handler applied to a store computes to the
    store it leaves and its trace. *)

Ltac run :=
  cbv beta iota zeta delta
    [handle asyncHandler bind ret emit throw getStore putStore store trace
     negb isEmpty
     Author.find_sort_family_name Author.findById Author.findOne Author.save
     Author.findByIdAndDelete Author.findByIdAndUpdate
     Genre.find_all Genre.findById Genre.findOne Genre.save
     Genre.findByIdAndDelete Genre.findByIdAndUpdate
     Book.find_author Book.find_genre];
  cbn [app fst snd store trace].

(** Refuting that an event occurs in a trace that is written out. *)
Ltac not_in_trace :=
  cbv zeta in *; cbn [In]; intros K;
  repeat match type of K with
         | _ \/ _ => destruct K as [K|K]
         end;
  try discriminate K; try (injection K; intros; subst; congruence);
  try contradiction.

(** The calls that answer the request, and their number in a trace. *)
Definition isResponse (e : Event) : bool :=
  match e with
  | res_render _ _ | res_redirect _ | next _ => true
  | _ => false
  end.

Definition responses (tr : list Event) : nat :=
  List.length (filter isResponse tr).

(** The calls that can change a collection. *)
Definition isWrite (e : Event) : bool :=
  match e with
  | Author_save _ | Author_findByIdAndDelete _ | Author_findByIdAndUpdate _ _
  | Genre_save _ | Genre_findByIdAndDelete _ | Genre_findByIdAndUpdate _ _ => true
  | _ => false
  end.

(** The characters [escape] replaces, and those among them other than the
    ampersand, which the replacement texts themselves contain. *)
Definition isMarkup (c : ascii) : bool :=
  let n := nat_of_ascii c in
  ((n =? 34) || (n =? 39) || (n =? 60) || (n =? 62) || (n =? 47) || (n =? 92)
   || (n =? 96))%nat.

Definition isEscaped (c : ascii) : bool :=
  (nat_of_ascii c =? 38)%nat || isMarkup c.

Fixpoint anyChar (p : ascii -> bool) (s : string) : bool :=
  match s with
  | EmptyString => false
  | String c r => p c || anyChar p r
  end.

Fixpoint allSpace (s : string) : bool :=
  match s with
  | EmptyString => true
  | String c r => isSpace c && allSpace r
  end.

(** The last character of a string. *)
Fixpoint lastChar (s : string) : option ascii :=
  match s with
  | EmptyString => None
  | String c EmptyString => Some c
  | String _ r => lastChar r
  end.

Definition firstChar (s : string) : option ascii :=
  match s with
  | EmptyString => None
  | String c _ => Some c
  end.

(** A name the Author chains accept: non-empty, letters and digits only. *)
Definition validName (v : string) : Prop :=
  v <> EmptyString /\ allAlnum v = true.


(** A handler run that neither changes the store nor calls a write. *)
Definition readOnly (h : M unit) (s : Store) : Prop :=
  fst (handle h s) = s /\ existsb isWrite (snd (handle h s)) = false.

(** What the [trim] and [escape] of a name chain leave in [req.body]. *)
Definition sanitize (v : string) : string := escape (trim v).

(** Case analysis on what a handler branches on: the error list, a lookup,
    the Books found. *)
Ltac branch :=
  repeat match goal with
         | |- context [find ?p ?l] =>
             let F := fresh "F" in destruct (find p l) eqn:F
         | |- context [filter ?p ?l] =>
             let B := fresh "B" in destruct (filter p l) eqn:B
         end.

(* ================================================================= *)
(** * Properties *)

(** ** Strings: order, trimming, escaping *)

Lemma string_compare_trans_le (a b c : string) :
  String.compare a b <> Gt -> String.compare b c <> Gt -> String.compare a c <> Gt.
Proof.
  revert b c.
  induction a as [|x a IH]; intros [|y b] [|z c]; simpl; try congruence.
  unfold Ascii.compare.
  destruct (N.compare_spec (N_of_ascii x) (N_of_ascii y)) as [Exy|Lxy|Gxy];
    destruct (N.compare_spec (N_of_ascii y) (N_of_ascii z)) as [Eyz|Lyz|Gyz];
    destruct (N.compare_spec (N_of_ascii x) (N_of_ascii z)) as [Exz|Lxz|Gxz];
    try congruence; try lia; intros Hab Hbc.
  now apply (IH b c).
Qed.

Lemma string_leb_trans (a b c : string) :
  String.leb a b = true -> String.leb b c = true -> String.leb a c = true.
Proof.
  unfold String.leb. intros Hab Hbc.
  assert (H1 : String.compare a b <> Gt) by (destruct (String.compare a b); congruence).
  assert (H2 : String.compare b c <> Gt) by (destruct (String.compare b c); congruence).
  pose proof (string_compare_trans_le a b c H1 H2) as H3.
  destruct (String.compare a c); congruence.
Qed.

Lemma string_leb_false (a b : string) :
  String.leb a b = false -> String.leb b a = true.
Proof.
  intros Hab. destruct (String.leb_total a b) as [E|E]; congruence.
Qed.

Lemma escape_char_length (c : ascii) : 1 <= String.length (escape_char c).
Proof.
  unfold escape_char.
  repeat (match goal with |- context [match ?n with _ => _ end] => destruct n end;
          simpl; try lia).
Qed.

Lemma string_length_app (s t : string) :
  String.length (s ++ t)%string = String.length s + String.length t.
Proof. induction s as [|c s IH]; simpl; [reflexivity | now rewrite IH]. Qed.

Lemma escape_length (s : string) : String.length s <= String.length (escape s).
Proof.
  induction s as [|c s IH]; simpl; [lia|].
  rewrite string_length_app. pose proof (escape_char_length c). lia.
Qed.

Lemma allAlnum_escape_char (c : ascii) (r : string) :
  allAlnum (escape_char c ++ r)%string = isAlnumChar c && allAlnum r.
Proof.
  destruct c as [[] [] [] [] [] [] [] []]; reflexivity.
Qed.

Lemma allAlnum_escape (s : string) : allAlnum (escape s) = allAlnum s.
Proof.
  induction s as [|c s IH]; simpl; [reflexivity|].
  now rewrite allAlnum_escape_char, IH.
Qed.

Lemma escape_empty (s : string) : escape s = EmptyString -> s = EmptyString.
Proof.
  intros E. pose proof (escape_length s) as L. rewrite E in L.
  destruct s; [reflexivity | simpl in L; lia].
Qed.

(** Escaping changes neither emptiness nor the presence of a character
    outside [0-9A-Za-z]: the test after [escape] is the test before it. *)
Lemma isAlphanumeric_escape (s : string) :
  isAlphanumeric (escape s) = isAlphanumeric s.
Proof.
  unfold isAlphanumeric.
  destruct (escape s) eqn:E.
  - apply escape_empty in E. now subst.
  - rewrite <- E, allAlnum_escape. destruct s; [discriminate E | reflexivity].
Qed.

Lemma isAlphanumeric_nonempty (s : string) :
  isAlphanumeric s = true -> isLength 1 s = true.
Proof. destruct s; [discriminate | reflexivity]. Qed.

(** ** Collections *)

Lemma store_eta (s : Store) : mkStore (authors s) (genres s) (books s) = s.
Proof. now destruct s. Qed.

Lemma updateOne_absent {A} (p : A -> bool) (d : A) (l : list A) :
  find p l = None -> updateOne p d l = l.
Proof.
  induction l as [|x l IH]; simpl; [reflexivity|].
  destruct (p x); [discriminate | intros E; now rewrite IH].
Qed.

Lemma updateOne_find {A} (p : A -> bool) (d old : A) (l : list A) :
  find p l = Some old -> p d = true -> find p (updateOne p d l) = Some d.
Proof.
  intros F Pd. induction l as [|x l IH]; simpl in *; [discriminate|].
  destruct (p x) eqn:Px; simpl.
  - now rewrite Pd.
  - rewrite Px. now apply IH.
Qed.

(** Replacing a document by one that carries the same key leaves the
    sequence of keys of the collection as it was. *)
Lemma updateOne_keys {A K} (key : A -> K) (p : A -> bool) (d : A) (l : list A) :
  (forall x, p x = true -> key x = key d) ->
  map key (updateOne p d l) = map key l.
Proof.
  intros Hk. induction l as [|x l IH]; simpl; [reflexivity|].
  destruct (p x) eqn:Px; simpl.
  - now rewrite (Hk x Px).
  - now rewrite IH.
Qed.

Lemma find_app_absent {A} (p : A -> bool) (l : list A) (d : A) :
  find p l = None -> p d = true -> find p (l ++ [d]) = Some d.
Proof.
  intros F Pd. induction l as [|x l IH]; simpl in *.
  - now rewrite Pd.
  - destruct (p x); [discriminate | now apply IH].
Qed.

Lemma find_none_iff {A} (p : A -> bool) (l : list A) :
  find p l = None <-> (forall x, In x l -> p x = false).
Proof.
  split.
  - intros F x Hx. exact (find_none p l F x Hx).
  - intros Hall. induction l as [|x l IH]; simpl; [reflexivity|].
    rewrite (Hall x (or_introl eq_refl)). apply IH.
    intros y Hy. apply Hall. now right.
Qed.

Lemma find_exists {A} (p : A -> bool) (l : list A) :
  (exists x, In x l /\ p x = true) -> exists y, find p l = Some y.
Proof.
  intros [x [Hx Px]]. destruct (find p l) as [y|] eqn:F; [now exists y|].
  rewrite (find_none p l F x Hx) in Px. discriminate.
Qed.

(** ** Sorting by family name *)

Lemma insert_perm (d : AuthorDoc) (l : list AuthorDoc) :
  Permutation (d :: l) (Author.insert d l).
Proof.
  induction l as [|x l IH]; simpl; [apply Permutation_refl|].
  destruct (String.leb (a_family_name d) (a_family_name x)).
  - apply Permutation_refl.
  - eapply perm_trans; [apply perm_swap | now apply perm_skip].
Qed.

Lemma sort_perm (l : list AuthorDoc) : Permutation l (Author.sort l).
Proof.
  induction l as [|x l IH]; simpl; [constructor|].
  eapply perm_trans; [apply perm_skip, IH | apply insert_perm].
Qed.

Lemma insert_forall (P : AuthorDoc -> Prop) d l :
  P d -> Forall P l -> Forall P (Author.insert d l).
Proof.
  intros Pd Hl.
  apply (Permutation_Forall (insert_perm d l)). now constructor.
Qed.

Lemma insert_sorted (d : AuthorDoc) (l : list AuthorDoc) :
  StronglySorted family_le l -> StronglySorted family_le (Author.insert d l).
Proof.
  induction 1 as [|x l Hs IH Hx]; simpl.
  - repeat constructor.
  - destruct (String.leb (a_family_name d) (a_family_name x)) eqn:E.
    + constructor; [now constructor|].
      constructor; [exact E|].
      eapply Forall_impl; [|exact Hx].
      intros y Hy. unfold family_le in *. eapply string_leb_trans; eauto.
    + constructor; [exact IH|].
      apply insert_forall; [|exact Hx].
      unfold family_le. now apply string_leb_false.
Qed.

Lemma sort_sorted (l : list AuthorDoc) : StronglySorted family_le (Author.sort l).
Proof.
  induction l as [|x l IH]; simpl; [constructor | now apply insert_sorted].
Qed.

(** C10: [author_list] asks the store for every Author sorted on
    [family_name] and renders the whole answer, which is a rearrangement of
    the collection in ascending order of family name; [genre_list] renders
    the Genre collection as the store holds it.  Neither handler drops or
    pages documents. *)
Theorem list_renders_whole_collection (s : Store) (req : Request) :
  (handle (author_list req) s =
     (s, [Author_find_sort_family_name;
          res_render "author_list"
            (author_list_locals "Author List" (Author.sort (authors s)))])
   /\ Permutation (authors s) (Author.sort (authors s))
   /\ StronglySorted family_le (Author.sort (authors s)))
  /\ handle (genre_list req) s =
       (s, [Genre_find;
            res_render "genre_list" (genre_list_locals "Genre List" (genres s))]).
Proof.
  repeat split.
  - apply sort_perm.
  - apply sort_sorted.
Qed.

(** ** Create *)

Section Create.
Context `{Collaborators}.

Lemma genre_create_post_existing (s : Store) (req : Request) (g : GenreDoc) :
  snd (genre_create_chain (name (body req))) = [] ->
  find (Genre.hasName (genre_key req)) (genres s) = Some g ->
  handle (genre_create_post req) s =
    (s, [Genre_findOne (genre_key req); res_redirect (Genre.url g)]).
Proof.
  intros V F. unfold genre_create_post, genre_key in *. rewrite V. run.
  rewrite F. reflexivity.
Qed.

Lemma genre_create_post_new (s : Store) (req : Request) :
  snd (genre_create_chain (name (body req))) = [] ->
  find (Genre.hasName (genre_key req)) (genres s) = None ->
  find (Genre.hasId (generated_id req)) (genres s) = None ->
  let g := mkGenre (generated_id req) (genre_key req) in
  handle (genre_create_post req) s =
    (mkStore (authors s) (genres s ++ [g]) (books s),
     [Genre_findOne (genre_key req); Genre_save g; res_redirect (Genre.url g)]).
Proof.
  intros V F I g. unfold genre_create_post, genre_key in *. rewrite V. run.
  rewrite F. cbn [g_id]. rewrite I. reflexivity.
Qed.

Lemma author_create_post_existing (s : Store) (req : Request) (a : AuthorDoc) :
  author_errors (body req) = [] ->
  let cand := new_Author (generated_id req) (body req) in
  find (Author.hasName (a_first_name cand) (a_family_name cand)) (authors s) = Some a ->
  handle (author_create_post req) s =
    (s, [Author_findOne (a_first_name cand) (a_family_name cand);
         res_redirect (Author.url a)]).
Proof.
  intros V cand F. unfold author_create_post. rewrite V. run.
  fold cand. rewrite F. reflexivity.
Qed.

Lemma author_create_post_new (s : Store) (req : Request) :
  author_errors (body req) = [] ->
  let cand := new_Author (generated_id req) (body req) in
  find (Author.hasName (a_first_name cand) (a_family_name cand)) (authors s) = None ->
  find (Author.hasId (generated_id req)) (authors s) = None ->
  handle (author_create_post req) s =
    (mkStore (authors s ++ [cand]) (genres s) (books s),
     [Author_findOne (a_first_name cand) (a_family_name cand);
      Author_save cand; res_redirect (Author.url cand)]).
Proof.
  intros V cand F I. unfold author_create_post. rewrite V. run.
  fold cand. rewrite F. change (a_id cand) with (generated_id req).
  rewrite I. reflexivity.
Qed.

Lemma genre_hasName_iff (k : string) (g : GenreDoc) :
  Genre.hasName k g = true <-> g_name g = k.
Proof. unfold Genre.hasName. apply String.eqb_eq. Qed.

Lemma author_hasName_iff (f l : string) (a : AuthorDoc) :
  Author.hasName f l a = true <-> a_first_name a = f /\ a_family_name a = l.
Proof.
  unfold Author.hasName. rewrite andb_true_iff, !String.eqb_eq. tauto.
Qed.

Lemma genre_hasId_iff (i : ObjectId) (g : GenreDoc) :
  Genre.hasId i g = true <-> g_id g = i.
Proof. unfold Genre.hasId. apply N.eqb_eq. Qed.

Lemma author_hasId_iff (i : ObjectId) (a : AuthorDoc) :
  Author.hasId i a = true <-> a_id a = i.
Proof. unfold Author.hasId. apply N.eqb_eq. Qed.

Lemma find_none_not {A} (p : A -> bool) (P : A -> Prop) (l : list A) :
  (forall x, p x = true <-> P x) ->
  (forall x, In x l -> ~ P x) -> find p l = None.
Proof.
  intros Hp Hn. apply find_none_iff. intros x Hx.
  destruct (p x) eqn:E; [|reflexivity].
  exfalso. apply (Hn x Hx). now apply Hp.
Qed.

(** C1: a Genre (resp. Author) create submission that passes validation
    and whose natural key, the sanitized name (resp. pair of names), is
    carried by a stored document is answered by a redirect to the url of
    such a document, and the store is left as it was.  When no stored
    document carries the key (and the generated identifier is new), the
    candidate is appended to the collection and the redirect goes to its
    url; the same submission sent again is then redirected to that same url
    and leaves the store, hence its size, unchanged. *)
Theorem create_post_avoids_duplicates (s : Store) (req : Request) :
  (snd (genre_create_chain (name (body req))) = [] ->
     ((exists g, In g (genres s) /\ g_name g = genre_key req) ->
      exists g, In g (genres s) /\ g_name g = genre_key req /\
        handle (genre_create_post req) s =
          (s, [Genre_findOne (genre_key req); res_redirect (Genre.url g)]))
     /\
     ((forall g, In g (genres s) -> g_name g <> genre_key req) ->
      (forall g, In g (genres s) -> g_id g <> generated_id req) ->
      let g := mkGenre (generated_id req) (genre_key req) in
      let s' := mkStore (authors s) (genres s ++ [g]) (books s) in
      handle (genre_create_post req) s =
        (s', [Genre_findOne (genre_key req); Genre_save g;
              res_redirect (Genre.url g)])
      /\ forall req', body req' = body req ->
           handle (genre_create_post req') s' =
             (s', [Genre_findOne (genre_key req); res_redirect (Genre.url g)])))
  /\
  (author_errors (body req) = [] ->
     let cand := new_Author (generated_id req) (body req) in
     let first := a_first_name cand in
     let family := a_family_name cand in
     ((exists a, In a (authors s) /\ a_first_name a = first /\ a_family_name a = family) ->
      exists a, In a (authors s) /\ a_first_name a = first /\ a_family_name a = family /\
        handle (author_create_post req) s =
          (s, [Author_findOne first family; res_redirect (Author.url a)]))
     /\
     ((forall a, In a (authors s) ->
         ~ (a_first_name a = first /\ a_family_name a = family)) ->
      (forall a, In a (authors s) -> a_id a <> generated_id req) ->
      let s' := mkStore (authors s ++ [cand]) (genres s) (books s) in
      handle (author_create_post req) s =
        (s', [Author_findOne first family; Author_save cand;
              res_redirect (Author.url cand)])
      /\ forall req', body req' = body req ->
           handle (author_create_post req') s' =
             (s', [Author_findOne first family; res_redirect (Author.url cand)]))).
Proof.
  split.
  - intros V. split.
    + intros [g0 [Hin Hk]].
      destruct (find_exists (Genre.hasName (genre_key req)) (genres s)) as [g F].
      { exists g0. split; [exact Hin | now apply genre_hasName_iff]. }
      exists g. pose proof (find_some _ _ F) as [Hg Hn].
      apply genre_hasName_iff in Hn.
      repeat split; trivial. now apply genre_create_post_existing.
    + intros Hk Hi g s'.
      assert (F : find (Genre.hasName (genre_key req)) (genres s) = None).
      { apply (find_none_not _ (fun g => g_name g = genre_key req)); trivial.
        intros x. apply genre_hasName_iff. }
      assert (I : find (Genre.hasId (generated_id req)) (genres s) = None).
      { apply (find_none_not _ (fun g => g_id g = generated_id req)); trivial.
        intros x. apply genre_hasId_iff. }
      split; [now apply genre_create_post_new|].
      intros req' Hb.
      assert (K : genre_key req' = genre_key req) by (unfold genre_key; now rewrite Hb).
      rewrite <- K. apply genre_create_post_existing.
      * now rewrite Hb.
      * rewrite K. cbn [genres s']. apply find_app_absent; [exact F|].
        now apply genre_hasName_iff.
  - intros V cand first family. split.
    + intros [a0 [Hin Hk]].
      destruct (find_exists (Author.hasName first family) (authors s)) as [a F].
      { exists a0. split; [exact Hin | now apply author_hasName_iff]. }
      exists a. pose proof (find_some _ _ F) as [Ha Hn].
      apply author_hasName_iff in Hn. destruct Hn as [Hn1 Hn2].
      repeat split; trivial. now apply author_create_post_existing.
    + intros Hk Hi s'.
      assert (F : find (Author.hasName first family) (authors s) = None).
      { apply (find_none_not _
                 (fun a => a_first_name a = first /\ a_family_name a = family));
          trivial.
        intros x. apply author_hasName_iff. }
      assert (I : find (Author.hasId (generated_id req)) (authors s) = None).
      { apply (find_none_not _ (fun a => a_id a = generated_id req)); trivial.
        intros x. apply author_hasId_iff. }
      split; [now apply author_create_post_new|].
      intros req' Hb.
      assert (V' : author_errors (body req') = []) by now rewrite Hb.
      pose proof (author_create_post_existing s' req' cand V') as E.
      cbv zeta in E. unfold new_Author in E. rewrite Hb in E.
      apply E. cbn [authors s' a_first_name a_family_name].
      apply find_app_absent; [exact F|].
      now apply author_hasName_iff.
Qed.

End Create.

(** ** Delete *)

Section Delete.
Context `{Collaborators}.

Lemma deleteOne_length {A} (p : A -> bool) (l : list A) (x : A) :
  find p l = Some x -> S (List.length (deleteOne p l)) = List.length l.
Proof.
  induction l as [|y l IH]; simpl; [discriminate|].
  destruct (p y); [reflexivity|]. intros F. simpl. now rewrite IH.
Qed.

Lemma author_delete_post_blocked (s : Store) (req : Request) :
  books_of_author s (params_id req) <> [] ->
  handle (author_delete_post req) s =
    (s, [Author_findById (params_id req);
         Book_find_author (params_id req) ["title"; "summary"];
         res_render "author_delete"
           (author_delete_locals "Delete Author"
              (find (Author.hasId (params_id req)) (authors s))
              (map (Book.project ["title"; "summary"])
                 (books_of_author s (params_id req))))]).
Proof.
  unfold books_of_author, author_delete_post. intros B. run.
  destruct (filter (Book.byAuthor (params_id req)) (books s)); [congruence|].
  reflexivity.
Qed.

Lemma author_delete_post_free (s : Store) (req : Request) :
  books_of_author s (params_id req) = [] ->
  handle (author_delete_post req) s =
    (mkStore (deleteOne (Author.hasId (authorid (body req))) (authors s))
       (genres s) (books s),
     [Author_findById (params_id req);
      Book_find_author (params_id req) ["title"; "summary"];
      Author_findByIdAndDelete (authorid (body req));
      res_redirect "/catalog/authors"]).
Proof.
  unfold books_of_author, author_delete_post. intros B. run.
  rewrite B. reflexivity.
Qed.

Lemma genre_delete_post_blocked (s : Store) (req : Request) :
  books_of_genre s (params_id req) <> [] ->
  handle (genre_delete_post req) s =
    (s, [Genre_findById (params_id req);
         Book_find_genre (params_id req) ["title"; "sumarry"];
         res_render "genre_delete"
           (genre_delete_locals "Delete Genre"
              (find (Genre.hasId (params_id req)) (genres s))
              (map (Book.project ["title"; "sumarry"])
                 (books_of_genre s (params_id req))))]).
Proof.
  unfold books_of_genre, genre_delete_post. intros B. run.
  destruct (filter (Book.byGenre (params_id req)) (books s)); [congruence|].
  reflexivity.
Qed.

Lemma genre_delete_post_free (s : Store) (req : Request) :
  books_of_genre s (params_id req) = [] ->
  handle (genre_delete_post req) s =
    (mkStore (authors s)
       (deleteOne (Genre.hasId (genreid (body req))) (genres s)) (books s),
     [Genre_findById (params_id req);
      Book_find_genre (params_id req) ["title"; "sumarry"];
      Genre_findByIdAndDelete (genreid (body req));
      res_redirect "/catalog/genres"]).
Proof.
  unfold books_of_genre, genre_delete_post. intros B. run.
  rewrite B. reflexivity.
Qed.

(** C3: in both delete-confirmation handlers the Books that decide between
    refusing and deleting are those referencing [req.params.id], while the
    document removed is the one named by the form field
    ([req.body.authorid], [req.body.genreid]).  When the two identifiers
    differ, no query of the handler mentions the form identifier before the
    delete: if no Book references the route identifier, the document with
    the form identifier is removed, whatever references it. *)
Theorem delete_post_guard_examines_route_id (s : Store) (req : Request) :
  (params_id req <> authorid (body req) ->
     let pid := params_id req in
     let bid := authorid (body req) in
     let result := handle (author_delete_post req) s in
     In (Book_find_author pid ["title"; "summary"]) (snd result)
     /\ (forall projection, ~ In (Book_find_author bid projection) (snd result))
     /\ ~ In (Author_findById bid) (snd result)
     /\ (books_of_author s pid <> [] -> fst result = s)
     /\ (books_of_author s pid = [] ->
          In (Author_findByIdAndDelete bid) (snd result)
          /\ fst result =
               mkStore (deleteOne (Author.hasId bid) (authors s)) (genres s) (books s)
          /\ forall a, find (Author.hasId bid) (authors s) = Some a ->
               S (List.length (authors (fst result))) = List.length (authors s)))
  /\
  (params_id req <> genreid (body req) ->
     let pid := params_id req in
     let bid := genreid (body req) in
     let result := handle (genre_delete_post req) s in
     In (Book_find_genre pid ["title"; "sumarry"]) (snd result)
     /\ (forall projection, ~ In (Book_find_genre bid projection) (snd result))
     /\ ~ In (Genre_findById bid) (snd result)
     /\ (books_of_genre s pid <> [] -> fst result = s)
     /\ (books_of_genre s pid = [] ->
          In (Genre_findByIdAndDelete bid) (snd result)
          /\ fst result =
               mkStore (authors s) (deleteOne (Genre.hasId bid) (genres s)) (books s)
          /\ forall g, find (Genre.hasId bid) (genres s) = Some g ->
               S (List.length (genres (fst result))) = List.length (genres s))).
Proof.
  split; intros D pid bid result; subst result; subst pid bid.
  - destruct (books_of_author s (params_id req)) as [|b bs] eqn:B.
    + rewrite (author_delete_post_free s req B). cbn [fst snd authors].
      split; [cbn [In]; tauto|].
      split; [intros projection; not_in_trace|].
      split; [not_in_trace|].
      split; [congruence|]. intros _.
      split; [cbn [In]; tauto|].
      split; [reflexivity|].
      intros a F. now apply deleteOne_length with (x := a).
    + assert (B' : books_of_author s (params_id req) <> [])
        by (rewrite B; discriminate).
      rewrite (author_delete_post_blocked s req B'). cbn [fst snd].
      split; [cbn [In]; tauto|].
      split; [intros projection; not_in_trace|].
      split; [not_in_trace|].
      split; [reflexivity | discriminate].
  - destruct (books_of_genre s (params_id req)) as [|b bs] eqn:B.
    + rewrite (genre_delete_post_free s req B). cbn [fst snd genres].
      split; [cbn [In]; tauto|].
      split; [intros projection; not_in_trace|].
      split; [not_in_trace|].
      split; [congruence|]. intros _.
      split; [cbn [In]; tauto|].
      split; [reflexivity|].
      intros g F. now apply deleteOne_length with (x := g).
    + assert (B' : books_of_genre s (params_id req) <> [])
        by (rewrite B; discriminate).
      rewrite (genre_delete_post_blocked s req B'). cbn [fst snd].
      split; [cbn [In]; tauto|].
      split; [intros projection; not_in_trace|].
      split; [not_in_trace|].
      split; [reflexivity | discriminate].
Qed.

(** When the form names the document of the route, the guard protects it:
    a referenced document stays in the store. *)
Lemma delete_post_guard_same_id (s : Store) (req : Request) :
  (authorid (body req) = params_id req ->
   books_of_author s (authorid (body req)) <> [] ->
   fst (handle (author_delete_post req) s) = s)
  /\
  (genreid (body req) = params_id req ->
   books_of_genre s (genreid (body req)) <> [] ->
   fst (handle (genre_delete_post req) s) = s).
Proof.
  split; intros E B; rewrite E in B.
  - now rewrite (author_delete_post_blocked s req B).
  - now rewrite (genre_delete_post_blocked s req B).
Qed.

(** C2, evaluated where it fails: in [catalogue] a Book references Author 2
    and Genre 5.  A delete confirmation posted to the route of Author 1
    (which no Book references) with form field [authorid = 2] removes
    Author 2 and redirects to the list; likewise the route of Genre 6 with
    [genreid = 5] removes Genre 5.  The referencing Book is still in the
    store. *)
Theorem delete_post_removes_referenced_document :
  books_of_author catalogue 2 <> [] /\
  handle (author_delete_post (post_delete 1 2 0)) catalogue =
    (mkStore [mkAuthor 1 "Ann" "Lee" None None]
       (genres catalogue) (books catalogue),
     [Author_findById 1; Book_find_author 1 ["title"; "summary"];
      Author_findByIdAndDelete 2; res_redirect "/catalog/authors"])
  /\
  books_of_genre catalogue 5 <> [] /\
  handle (genre_delete_post (post_delete 6 0 5)) catalogue =
    (mkStore (authors catalogue) [mkGenre 6 "Horror"] (books catalogue),
     [Genre_findById 6; Book_find_genre 6 ["title"; "sumarry"];
      Genre_findByIdAndDelete 5; res_redirect "/catalog/genres"]).
Proof.
  repeat split; try (vm_compute; discriminate).
Qed.

End Delete.

(** ** Absent entities *)

Section Absent.
Context `{Collaborators}.

Lemma author_detail_absent (s : Store) (req : Request) :
  find (Author.hasId (params_id req)) (authors s) = None ->
  handle (author_detail req) s =
    (s, [Author_findById (params_id req);
         Book_find_author (params_id req) ["title"; "summary"];
         next (HttpError "Author not found" 404)]).
Proof. intros F. unfold author_detail. run. rewrite F. reflexivity. Qed.

Lemma genre_detail_absent (s : Store) (req : Request) :
  find (Genre.hasId (params_id req)) (genres s) = None ->
  handle (genre_detail req) s =
    (s, [Genre_findById (params_id req);
         Book_find_genre (params_id req) ["title"; "summary"];
         next (HttpError "Genre not found" 404)]).
Proof. intros F. unfold genre_detail. run. rewrite F. reflexivity. Qed.

Lemma author_update_get_absent (s : Store) (req : Request) :
  find (Author.hasId (params_id req)) (authors s) = None ->
  handle (author_update_get req) s =
    (s, [Author_findById (params_id req);
         next (HttpError "Author not found" 404)]).
Proof. intros F. unfold author_update_get. run. rewrite F. reflexivity. Qed.

(** The three handlers that redirect: the redirect is followed by the
    render call of the handler's last statement, on the absent entity. *)
Lemma author_delete_get_absent (s : Store) (req : Request) :
  find (Author.hasId (params_id req)) (authors s) = None ->
  handle (author_delete_get req) s =
    (s, [Author_findById (params_id req);
         Book_find_author (params_id req) ["title"; "summary"];
         res_redirect "/catalog/authors";
         res_render "author_delete"
           (author_delete_locals "Delete Author" None
              (map (Book.project ["title"; "summary"])
                 (books_of_author s (params_id req))))]).
Proof. intros F. unfold author_delete_get. run. rewrite F. reflexivity. Qed.

Lemma genre_delete_get_absent (s : Store) (req : Request) :
  find (Genre.hasId (params_id req)) (genres s) = None ->
  handle (genre_delete_get req) s =
    (s, [Genre_findById (params_id req);
         Book_find_genre (params_id req) ["title"; "sumarry"];
         res_redirect "/catalog/genre";
         res_render "genre_delete"
           (genre_delete_locals "Delete Genre" None
              (map (Book.project ["title"; "sumarry"])
                 (books_of_genre s (params_id req))))]).
Proof. intros F. unfold genre_delete_get. run. rewrite F. reflexivity. Qed.

Lemma genre_update_get_absent (s : Store) (req : Request) :
  find (Genre.hasId (params_id req)) (genres s) = None ->
  handle (genre_update_get req) s =
    (s, [Genre_findById (params_id req);
         res_redirect "/catalog/genres";
         res_render "genre_form" (genre_form_locals "Update Genre" None None)]).
Proof. intros F. unfold genre_update_get. run. rewrite F. reflexivity. Qed.

(** C5, evaluated where it fails: no document of [catalogue] has
    identifier 3.  The two detail handlers and [author_update_get] hand an
    error of status 404 to [next] and render nothing.  The three other
    handlers redirect and then go on to call [res.render] with the absent
    entity; [genre_delete_get] redirects to [/catalog/genre], where its two
    siblings redirect to the list at [/catalog/genres]. *)
Theorem absent_entity_on_catalogue :
  (handle (author_detail (get 3)) catalogue =
     (catalogue, [Author_findById 3; Book_find_author 3 ["title"; "summary"];
                  next (HttpError "Author not found" 404)])
   /\ handle (genre_detail (get 3)) catalogue =
        (catalogue, [Genre_findById 3; Book_find_genre 3 ["title"; "summary"];
                     next (HttpError "Genre not found" 404)])
   /\ handle (author_update_get (get 3)) catalogue =
        (catalogue, [Author_findById 3; next (HttpError "Author not found" 404)]))
  /\
  (handle (author_delete_get (get 3)) catalogue =
     (catalogue, [Author_findById 3; Book_find_author 3 ["title"; "summary"];
                  res_redirect "/catalog/authors";
                  res_render "author_delete"
                    (author_delete_locals "Delete Author" None [])])
   /\ handle (genre_delete_get (get 3)) catalogue =
        (catalogue, [Genre_findById 3; Book_find_genre 3 ["title"; "sumarry"];
                     res_redirect "/catalog/genre";
                     res_render "genre_delete"
                       (genre_delete_locals "Delete Genre" None [])])
   /\ handle (genre_update_get (get 3)) catalogue =
        (catalogue, [Genre_findById 3; res_redirect "/catalog/genres";
                     res_render "genre_form"
                       (genre_form_locals "Update Genre" None None)])).
Proof.
  split; [split; [|split] | split; [|split]].
  - now apply author_detail_absent.
  - now apply genre_detail_absent.
  - now apply author_update_get_absent.
  - now rewrite author_delete_get_absent.
  - now rewrite genre_delete_get_absent.
  - now apply genre_update_get_absent.
Qed.

End Absent.

(** ** Validation failure *)

Section Validation.
Context `{Collaborators}.

Lemma nonempty_cons {A} (l : list A) : l <> [] -> exists x r, l = x :: r.
Proof. destruct l as [|x r]; [congruence | intros _; now exists x, r]. Qed.

Lemma author_create_post_rejected (s : Store) (req : Request) :
  author_errors (body req) <> [] ->
  handle (author_create_post req) s =
    (s, [res_render "author_form"
           (author_form_locals "Create Author"
              (Some (new_Author (generated_id req) (body req)))
              (Some (author_errors (body req))))]).
Proof.
  intros E. destruct (nonempty_cons _ E) as [e [r Er]].
  unfold author_create_post. rewrite Er. run. reflexivity.
Qed.

Lemma author_update_post_rejected (s : Store) (req : Request) :
  author_errors (body req) <> [] ->
  handle (author_update_post req) s =
    (s, [res_render "author_form"
           (author_form_locals "Update Author"
              (Some (new_Author (params_id req) (body req)))
              (Some (author_errors (body req))))]).
Proof.
  intros E. destruct (nonempty_cons _ E) as [e [r Er]].
  unfold author_update_post. rewrite Er. run. reflexivity.
Qed.

Lemma genre_create_post_rejected (s : Store) (req : Request) :
  snd (genre_create_chain (name (body req))) <> [] ->
  handle (genre_create_post req) s =
    (s, [res_render "genre_form"
           (genre_form_locals "Create Genre"
              (Some (mkGenre (generated_id req)
                       (fst (genre_create_chain (name (body req))))))
              (Some (snd (genre_create_chain (name (body req))))))]).
Proof.
  intros E. destruct (nonempty_cons _ E) as [e [r Er]].
  unfold genre_create_post. rewrite Er. run. reflexivity.
Qed.

Lemma genre_update_post_rejected (s : Store) (req : Request) :
  snd (genre_update_chain (name (body req))) <> [] ->
  handle (genre_update_post req) s =
    (s, [res_render "genre_form"
           (genre_form_locals "Update Genre"
              (Some (mkGenre (params_id req)
                       (fst (genre_update_chain (name (body req))))))
              (Some (snd (genre_update_chain (name (body req))))))]).
Proof.
  intros E. destruct (nonempty_cons _ E) as [e [r Er]].
  unfold genre_update_post. rewrite Er. run. reflexivity.
Qed.

(** C6: when the chains of a create or update submission report at least one
    error, the handler makes one call, the render of the form it came from
    ([author_form] or [genre_form], with the title of the create or of the
    update page), handing it the candidate built from the sanitized
    submitted values and the errors in chain order; it makes no call on the
    store, which is left as it was. *)
Theorem validation_failure_rerenders_form (s : Store) (req : Request) :
  (author_errors (body req) <> [] ->
   handle (author_create_post req) s =
     (s, [res_render "author_form"
            (author_form_locals "Create Author"
               (Some (new_Author (generated_id req) (body req)))
               (Some (author_errors (body req))))])
   /\ handle (author_update_post req) s =
        (s, [res_render "author_form"
               (author_form_locals "Update Author"
                  (Some (new_Author (params_id req) (body req)))
                  (Some (author_errors (body req))))]))
  /\
  (snd (genre_create_chain (name (body req))) <> [] ->
   handle (genre_create_post req) s =
     (s, [res_render "genre_form"
            (genre_form_locals "Create Genre"
               (Some (mkGenre (generated_id req)
                        (fst (genre_create_chain (name (body req))))))
               (Some (snd (genre_create_chain (name (body req))))))]))
  /\
  (snd (genre_update_chain (name (body req))) <> [] ->
   handle (genre_update_post req) s =
     (s, [res_render "genre_form"
            (genre_form_locals "Update Genre"
               (Some (mkGenre (params_id req)
                        (fst (genre_update_chain (name (body req))))))
               (Some (snd (genre_update_chain (name (body req))))))])).
Proof.
  split; [|split].
  - intros E. split.
    + now apply author_create_post_rejected.
    + now apply author_update_post_rejected.
  - apply genre_create_post_rejected.
  - apply genre_update_post_rejected.
Qed.

Lemma check_nil (field message : string) (ok : bool) :
  check field message ok = [] <-> ok = true.
Proof. destruct ok; simpl; split; congruence. Qed.

Lemma check_failed (field message : string) :
  check field message false = [mkFieldError field message].
Proof. reflexivity. Qed.

Lemma app_nil_iff {A} (l r : list A) : l ++ r = [] <-> l = [] /\ r = [].
Proof.
  split; [apply app_eq_nil | intros [-> ->]; reflexivity].
Qed.

Lemma isAlphanumeric_iff (v : string) :
  isAlphanumeric v = true <-> v <> EmptyString /\ allAlnum v = true.
Proof.
  destruct v as [|c r]; simpl.
  - split; [discriminate | intros [E _]; congruence].
  - split; [intros E; split; [discriminate | exact E] | tauto].
Qed.

Lemma date_chain_nil (field message v : string) :
  snd (date_chain field message v) = []
  <-> v = EmptyString \/ isISO8601 v = true.
Proof.
  destruct v as [|c r]; simpl.
  - tauto.
  - rewrite check_nil. split; [tauto|]. intros [E|E]; [discriminate | exact E].
Qed.

Lemma author_errors_nil (b : Body) :
  author_errors b = [] <->
    isAlphanumeric (trim (first_name b)) = true
    /\ isAlphanumeric (trim (family_name b)) = true
    /\ (date_of_birth b = EmptyString \/ isISO8601 (date_of_birth b) = true)
    /\ (date_of_death b = EmptyString \/ isISO8601 (date_of_death b) = true).
Proof.
  unfold author_errors, first_name_chain, family_name_chain. cbn [snd].
  rewrite !app_nil_iff, !check_nil, !date_chain_nil, !isAlphanumeric_escape.
  pose proof (isAlphanumeric_nonempty (trim (first_name b))).
  pose proof (isAlphanumeric_nonempty (trim (family_name b))).
  tauto.
Qed.

(** C8: the chains of an Author create submission report no error exactly
    when [first_name] and [family_name], once trimmed, are non-empty and
    made of letters and digits only, and each of the two dates is either
    left empty or an ISO-8601 date.  A first name (resp. family name) that
    is not such a run of letters and digits gets the message of its own
    field, and the handler renders the form again, without any call on the
    store. *)
Theorem author_create_validation (s : Store) (req : Request) :
  let b := body req in
  let rejected :=
    (s, [res_render "author_form"
           (author_form_locals "Create Author"
              (Some (new_Author (generated_id req) b))
              (Some (author_errors b)))]) in
  (author_errors b = [] <->
     (trim (first_name b) <> EmptyString /\ allAlnum (trim (first_name b)) = true)
     /\ (trim (family_name b) <> EmptyString /\ allAlnum (trim (family_name b)) = true)
     /\ (date_of_birth b = EmptyString \/ isISO8601 (date_of_birth b) = true)
     /\ (date_of_death b = EmptyString \/ isISO8601 (date_of_death b) = true))
  /\
  (isAlphanumeric (trim (first_name b)) = false ->
     In (mkFieldError "first_name" "First name has non-alphanumeric characters")
        (author_errors b)
     /\ handle (author_create_post req) s = rejected)
  /\
  (isAlphanumeric (trim (family_name b)) = false ->
     In (mkFieldError "family_name" "Family name has non-alphanumeric characters.")
        (author_errors b)
     /\ handle (author_create_post req) s = rejected).
Proof.
  intros b rejected. split; [|split].
  - rewrite author_errors_nil, !isAlphanumeric_iff. tauto.
  - intros E.
    assert (I : In (mkFieldError "first_name"
                      "First name has non-alphanumeric characters")
                   (author_errors b)).
    { unfold author_errors, first_name_chain. cbn [snd].
      rewrite isAlphanumeric_escape, E, check_failed.
      apply in_or_app. left. apply in_or_app. right. now left. }
    split; [exact I|].
    apply author_create_post_rejected.
    intros N. fold b in N. rewrite N in I. exact I.
  - intros E.
    assert (I : In (mkFieldError "family_name"
                      "Family name has non-alphanumeric characters.")
                   (author_errors b)).
    { unfold author_errors, family_name_chain. cbn [snd].
      rewrite (isAlphanumeric_escape (trim (family_name b))), E, check_failed.
      apply in_or_app. right. apply in_or_app. left.
      apply in_or_app. right. now left. }
    split; [exact I|].
    apply author_create_post_rejected.
    intros N. fold b in N. rewrite N in I. exact I.
Qed.

End Validation.

(** ** Update *)

Section Update.
Context `{Collaborators}.

Lemma author_update_post_accepted (s : Store) (req : Request) :
  author_errors (body req) = [] ->
  let cand := new_Author (params_id req) (body req) in
  handle (author_update_post req) s =
    (mkStore (updateOne (Author.hasId (params_id req)) cand (authors s))
       (genres s) (books s),
     [Author_findByIdAndUpdate (params_id req) cand;
      res_redirect (author_url (params_id req))]).
Proof.
  intros V cand. unfold author_update_post. rewrite V. run. reflexivity.
Qed.

Lemma genre_update_post_found (s : Store) (req : Request) (old : GenreDoc) :
  snd (genre_update_chain (name (body req))) = [] ->
  find (Genre.hasId (params_id req)) (genres s) = Some old ->
  let cand := mkGenre (params_id req) (fst (genre_update_chain (name (body req)))) in
  handle (genre_update_post req) s =
    (mkStore (authors s)
       (updateOne (Genre.hasId (params_id req)) cand (genres s)) (books s),
     [Genre_findByIdAndUpdate (params_id req) cand;
      res_redirect (genre_url (params_id req))]).
Proof.
  intros V F cand. unfold genre_update_post. rewrite V. run. rewrite F.
  pose proof (find_some _ _ F) as [_ I]. apply genre_hasId_iff in I.
  unfold Genre.url. rewrite I. reflexivity.
Qed.

Lemma genre_update_post_missing (s : Store) (req : Request) :
  snd (genre_update_chain (name (body req))) = [] ->
  find (Genre.hasId (params_id req)) (genres s) = None ->
  handle (genre_update_post req) s =
    (s, [Genre_findByIdAndUpdate (params_id req)
           (mkGenre (params_id req) (fst (genre_update_chain (name (body req)))));
         next (TypeError "Cannot read properties of null (reading 'url')")]).
Proof.
  intros V F. unfold genre_update_post. rewrite V. run. rewrite F.
  rewrite (updateOne_absent _ _ _ F), store_eta. reflexivity.
Qed.

(** C7: an update submission that passes validation, for a route identifier
    that names a stored document, makes two calls: the update by that
    identifier with the candidate, and the redirect to the url of that
    identifier; no lookup by natural key occurs.  The candidate carries the
    route identifier, whatever the form holds; afterwards the document with
    that identifier is the candidate, so its identifier and url are those
    of the document it replaces and its other fields are the sanitized
    submitted values; the identifiers of the collection, in order, and the
    other collections are unchanged. *)
Theorem update_post_overwrites_in_place (s : Store) (req : Request) :
  (author_errors (body req) = [] ->
   forall old, find (Author.hasId (params_id req)) (authors s) = Some old ->
     let pid := params_id req in
     let cand := new_Author pid (body req) in
     let result := handle (author_update_post req) s in
     snd result = [Author_findByIdAndUpdate pid cand; res_redirect (author_url pid)]
     /\ (forall first family, ~ In (Author_findOne first family) (snd result))
     /\ a_id cand = pid /\ a_id old = a_id cand /\ Author.url old = Author.url cand
     /\ find (Author.hasId pid) (authors (fst result)) = Some cand
     /\ map a_id (authors (fst result)) = map a_id (authors s)
     /\ genres (fst result) = genres s /\ books (fst result) = books s)
  /\
  (snd (genre_update_chain (name (body req))) = [] ->
   forall old, find (Genre.hasId (params_id req)) (genres s) = Some old ->
     let pid := params_id req in
     let cand := mkGenre pid (fst (genre_update_chain (name (body req)))) in
     let result := handle (genre_update_post req) s in
     snd result = [Genre_findByIdAndUpdate pid cand; res_redirect (genre_url pid)]
     /\ (forall nm, ~ In (Genre_findOne nm) (snd result))
     /\ g_id cand = pid /\ g_id old = g_id cand /\ Genre.url old = Genre.url cand
     /\ find (Genre.hasId pid) (genres (fst result)) = Some cand
     /\ map g_id (genres (fst result)) = map g_id (genres s)
     /\ authors (fst result) = authors s /\ books (fst result) = books s).
Proof.
  split.
  - intros V old F pid cand result. subst result.
    rewrite (author_update_post_accepted s req V). cbn [fst snd authors genres books].
    pose proof (find_some _ _ F) as [_ I]. apply author_hasId_iff in I.
    fold pid cand in I |- *.
    assert (C : a_id cand = pid) by reflexivity.
    split; [reflexivity|].
    split; [intros first family; not_in_trace|].
    split; [exact C|].
    split; [congruence|].
    split; [unfold Author.url; congruence|].
    split; [apply updateOne_find with (old := old);
            [exact F | now apply author_hasId_iff]|].
    split; [|split; reflexivity].
    apply updateOne_keys. intros x Hx. apply author_hasId_iff in Hx. congruence.
  - intros V old F pid cand result. subst result.
    rewrite (genre_update_post_found s req old V F). cbn [fst snd authors genres books].
    pose proof (find_some _ _ F) as [_ I]. apply genre_hasId_iff in I.
    fold pid cand in I |- *.
    assert (C : g_id cand = pid) by reflexivity.
    split; [reflexivity|].
    split; [intros nm; not_in_trace|].
    split; [exact C|].
    split; [congruence|].
    split; [unfold Genre.url; congruence|].
    split; [apply updateOne_find with (old := old);
            [exact F | now apply genre_hasId_iff]|].
    split; [|split; reflexivity].
    apply updateOne_keys. intros x Hx. apply genre_hasId_iff in Hx. congruence.
Qed.

(** C9: when the submitted name passes the update chain and no Genre has
    the route identifier, [genre_update_post] calls the update, which finds
    nothing and changes nothing, and then throws a TypeError on reading
    [url] of [null]: neither a redirect nor a 404 is produced, the error
    reaches [next] through the async wrapper.  On the same situation for
    Authors, [author_update_post] redirects to the url of the candidate it
    built. *)
Theorem genre_update_post_absent_throws (s : Store) (req : Request) :
  snd (genre_update_chain (name (body req))) = [] ->
  find (Genre.hasId (params_id req)) (genres s) = None ->
  handle (genre_update_post req) s =
    (s, [Genre_findByIdAndUpdate (params_id req)
           (mkGenre (params_id req) (fst (genre_update_chain (name (body req)))));
         next (TypeError "Cannot read properties of null (reading 'url')")])
  /\
  (author_errors (body req) = [] ->
   find (Author.hasId (params_id req)) (authors s) = None ->
   handle (author_update_post req) s =
     (s, [Author_findByIdAndUpdate (params_id req)
            (new_Author (params_id req) (body req));
          res_redirect (Author.url (new_Author (params_id req) (body req)))])).
Proof.
  intros V F. split; [now apply genre_update_post_missing|].
  intros VA FA. rewrite (author_update_post_accepted s req VA).
  rewrite (updateOne_absent _ _ _ FA), store_eta. reflexivity.
Qed.

End Update.

(** ** The length of stored Genre names *)

Section GenreNames.
Context `{Collaborators}.

Lemma genre_create_post_collision (s : Store) (req : Request) (g : GenreDoc) :
  snd (genre_create_chain (name (body req))) = [] ->
  find (Genre.hasName (genre_key req)) (genres s) = None ->
  find (Genre.hasId (generated_id req)) (genres s) = Some g ->
  fst (handle (genre_create_post req) s) = s.
Proof.
  intros V F I. unfold genre_create_post, genre_key in *. rewrite V. run.
  rewrite F. cbn [g_id]. rewrite I. reflexivity.
Qed.

(** The create workflow keeps every stored Genre name at three characters
    or more: the name it stores passed [isLength({ min: 3 })] before
    [escape], which never shortens a string. *)
Lemma genre_create_post_keeps_names_long (s : Store) (req : Request) :
  Forall (fun g => 3 <= String.length (g_name g)) (genres s) ->
  Forall (fun g => 3 <= String.length (g_name g))
    (genres (fst (handle (genre_create_post req) s))).
Proof.
  intros Inv.
  destruct (snd (genre_create_chain (name (body req)))) as [|e r] eqn:V.
  - destruct (find (Genre.hasName (genre_key req)) (genres s)) as [g|] eqn:F.
    + now rewrite (genre_create_post_existing s req g V F).
    + destruct (find (Genre.hasId (generated_id req)) (genres s)) as [g|] eqn:I.
      * now rewrite (genre_create_post_collision s req g V F I).
      * rewrite (genre_create_post_new s req V F I). cbn [fst genres].
        apply Forall_app. split; [exact Inv|].
        constructor; [|constructor]. cbn [g_name].
        unfold genre_key, genre_create_chain in *. cbn [fst snd] in *.
        apply check_nil in V. unfold isLength in V. apply Nat.leb_le in V.
        pose proof (escape_length (trim (name (body req)))). lia.
  - rewrite genre_create_post_rejected; [exact Inv|].
    rewrite V. discriminate.
Qed.

(** C4, evaluated where it fails: Genre 5 of [catalogue] is named
    "Fantasy".  The update form posted for it with the name " ab " passes
    the update chain, whose [isLength] asks for one character, and the
    stored name becomes "ab", of length 2; the create chain refuses the
    same name with its message about three characters. *)
Theorem genre_update_post_stores_short_name :
  snd (genre_update_chain (name (body (post_genre " ab " 5 0)))) = []
  /\ handle (genre_update_post (post_genre " ab " 5 0)) catalogue =
       (mkStore (authors catalogue) [mkGenre 5 "ab"; mkGenre 6 "Horror"]
          (books catalogue),
        [Genre_findByIdAndUpdate 5 (mkGenre 5 "ab");
         res_redirect (genre_url 5)])
  /\ String.length "ab" < 3
  /\ snd (genre_create_chain (name (body (post_genre " ab " 5 0)))) =
       [mkFieldError "name" "Genre name must contain at least 3 characters"].
Proof.
  repeat split. vm_compute. lia.
Qed.

End GenreNames.

(** ** The statements on sample requests *)

Lemma create_post_avoids_duplicates_witness :
  (handle (genre_create_post (post_genre " Fantasy " 0 10)) emptyStore =
     (mkStore [] [mkGenre 10 "Fantasy"] [],
      [Genre_findOne "Fantasy"; Genre_save (mkGenre 10 "Fantasy");
       res_redirect "/catalog/genre/a"])
   /\ handle (genre_create_post (post_genre " Fantasy " 0 10))
        (mkStore [] [mkGenre 10 "Fantasy"] []) =
        (mkStore [] [mkGenre 10 "Fantasy"] [],
         [Genre_findOne "Fantasy"; res_redirect "/catalog/genre/a"]))
  /\ (exists g, In g (genres catalogue) /\ g_name g = "Fantasy" /\
        handle (genre_create_post (post_genre "Fantasy" 0 10)) catalogue =
          (catalogue, [Genre_findOne "Fantasy"; res_redirect (Genre.url g)]))
  /\ (handle (author_create_post (post_author "Cy" "Orr" "" "" 0 11)) catalogue =
        (mkStore (authors catalogue ++ [mkAuthor 11 "Cy" "Orr" None None])
           (genres catalogue) (books catalogue),
         [Author_findOne "Cy" "Orr"; Author_save (mkAuthor 11 "Cy" "Orr" None None);
          res_redirect "/catalog/author/b"]))
  /\ (exists a, In a (authors catalogue)
        /\ a_first_name a = "Bob" /\ a_family_name a = "Ray" /\
        handle (author_create_post (post_author " Bob" "Ray " "" "" 0 11)) catalogue =
          (catalogue, [Author_findOne "Bob" "Ray"; res_redirect (Author.url a)])).
Proof.
  split; [|split; [|split]].
  - destruct (create_post_avoids_duplicates emptyStore
                (post_genre " Fantasy " 0 10)) as [G _].
    destruct (G eq_refl) as [_ N].
    destruct N as [E1 E2]; [intros g [] | intros g [] |].
    split; [exact E1 | exact (E2 _ eq_refl)].
  - destruct (create_post_avoids_duplicates catalogue
                (post_genre "Fantasy" 0 10)) as [G _].
    destruct (G eq_refl) as [E _].
    apply E. exists (mkGenre 5 "Fantasy"). split; [now left | reflexivity].
  - destruct (create_post_avoids_duplicates catalogue
                (post_author "Cy" "Orr" "" "" 0 11)) as [_ A].
    destruct (A eq_refl) as [_ N].
    destruct N as [E1 _]; [| | exact E1].
    + intros a [<-|[<-|[]]]; intros [K _]; discriminate K.
    + intros a [<-|[<-|[]]]; discriminate.
  - destruct (create_post_avoids_duplicates catalogue
                (post_author " Bob" "Ray " "" "" 0 11)) as [_ A].
    destruct (A eq_refl) as [E _].
    apply E. exists (mkAuthor 2 "Bob" "Ray" None None).
    split; [right; now left | split; reflexivity].
Defined.

Lemma delete_post_guard_examines_route_id_witness :
  fst (handle (author_delete_post (post_delete 1 2 5)) catalogue) =
    mkStore [mkAuthor 1 "Ann" "Lee" None None] (genres catalogue) (books catalogue)
  /\ fst (handle (genre_delete_post (post_delete 1 2 5)) catalogue) =
       mkStore (authors catalogue) [mkGenre 6 "Horror"] (books catalogue)
  /\ fst (handle (author_delete_post (post_delete 2 1 5)) catalogue) = catalogue
  /\ fst (handle (genre_delete_post (post_delete 5 1 6)) catalogue) = catalogue.
Proof.
  destruct (delete_post_guard_examines_route_id catalogue (post_delete 1 2 5))
    as [A G].
  destruct (A ltac:(discriminate)) as (_ & _ & _ & _ & FreeA).
  destruct (G ltac:(discriminate)) as (_ & _ & _ & _ & FreeG).
  destruct (FreeA eq_refl) as (_ & EA & _).
  destruct (FreeG eq_refl) as (_ & EG & _).
  destruct (delete_post_guard_examines_route_id catalogue (post_delete 2 1 5))
    as [A' _].
  destruct (A' ltac:(discriminate)) as (_ & _ & _ & BlockedA & _).
  destruct (delete_post_guard_examines_route_id catalogue (post_delete 5 1 6))
    as [_ G'].
  destruct (G' ltac:(discriminate)) as (_ & _ & _ & BlockedG & _).
  split; [exact EA|]. split; [exact EG|].
  split; [apply BlockedA | apply BlockedG]; discriminate.
Defined.

Lemma validation_failure_rerenders_form_witness :
  (handle (author_create_post (post_author "John2!" "Doe" "" "" 5 10)) catalogue =
     (catalogue,
      [res_render "author_form"
         (author_form_locals "Create Author"
            (Some (mkAuthor 10 "John2!" "Doe" None None))
            (Some [mkFieldError "first_name"
                     "First name has non-alphanumeric characters"]))])
   /\ handle (author_update_post (post_author "John2!" "Doe" "" "" 5 10)) catalogue =
        (catalogue,
         [res_render "author_form"
            (author_form_locals "Update Author"
               (Some (mkAuthor 5 "John2!" "Doe" None None))
               (Some [mkFieldError "first_name"
                        "First name has non-alphanumeric characters"]))]))
  /\ handle (genre_create_post (post_genre "ab" 5 10)) catalogue =
       (catalogue,
        [res_render "genre_form"
           (genre_form_locals "Create Genre" (Some (mkGenre 10 "ab"))
              (Some [mkFieldError "name"
                       "Genre name must contain at least 3 characters"]))])
  /\ handle (genre_update_post (post_genre "  " 5 10)) catalogue =
       (catalogue,
        [res_render "genre_form"
           (genre_form_locals "Update Genre" (Some (mkGenre 5 ""))
              (Some [mkFieldError "name" "Invalid Genre Value"]))]).
Proof.
  split; [|split].
  - destruct (validation_failure_rerenders_form catalogue
                (post_author "John2!" "Doe" "" "" 5 10)) as (A & _ & _).
    apply A. vm_compute. discriminate.
  - destruct (validation_failure_rerenders_form catalogue
                (post_genre "ab" 5 10)) as (_ & G & _).
    apply G. vm_compute. discriminate.
  - destruct (validation_failure_rerenders_form catalogue
                (post_genre "  " 5 10)) as (_ & _ & U).
    apply U. vm_compute. discriminate.
Defined.

Lemma update_post_overwrites_in_place_witness :
  authors (fst (handle (author_update_post
                          (post_author "Rob" "Roy" "1999-12-31" "" 2 10)) catalogue)) =
    [mkAuthor 1 "Ann" "Lee" None None;
     mkAuthor 2 "Rob" "Roy" (Some 19991231%Z) None]
  /\ genres (fst (handle (genre_update_post (post_genre " Epic " 5 10)) catalogue)) =
       [mkGenre 5 "Epic"; mkGenre 6 "Horror"]
  /\ snd (handle (genre_update_post (post_genre " Epic " 5 10)) catalogue) =
       [Genre_findByIdAndUpdate 5 (mkGenre 5 "Epic");
        res_redirect "/catalog/genre/5"].
Proof.
  destruct (update_post_overwrites_in_place catalogue
              (post_author "Rob" "Roy" "1999-12-31" "" 2 10)) as [A _].
  destruct (A eq_refl (mkAuthor 2 "Bob" "Ray" None None) eq_refl)
    as (_ & _ & _ & _ & _ & FA & _).
  destruct (update_post_overwrites_in_place catalogue
              (post_genre " Epic " 5 10)) as [_ G].
  destruct (G eq_refl (mkGenre 5 "Fantasy") eq_refl)
    as (TG & _ & _ & _ & _ & FG & _).
  split; [|split; [|exact TG]].
  - clear - FA. vm_compute in FA |- *. reflexivity.
  - clear - FG. vm_compute in FG |- *. reflexivity.
Defined.

Lemma author_create_validation_witness :
  In (mkFieldError "first_name" "First name has non-alphanumeric characters")
     (author_errors (body (post_author "John2!" "O'Neil" "" "" 0 10)))
  /\ In (mkFieldError "family_name" "Family name has non-alphanumeric characters.")
       (author_errors (body (post_author "John2!" "O'Neil" "" "" 0 10)))
  /\ fst (handle (author_create_post (post_author "John2!" "O'Neil" "" "" 0 10))
            catalogue) = catalogue
  /\ author_errors (body (post_author " John2 " "ONeil" "2001-02-03" "" 0 10)) = [].
Proof.
  destruct (author_create_validation catalogue
              (post_author "John2!" "O'Neil" "" "" 0 10)) as (_ & F & L).
  destruct (F eq_refl) as [IF EF].
  destruct (L eq_refl) as [IL _].
  destruct (author_create_validation catalogue
              (post_author " John2 " "ONeil" "2001-02-03" "" 0 10)) as (V & _ & _).
  split; [exact IF|]. split; [exact IL|].
  split; [now rewrite EF|].
  apply V. repeat split; try discriminate; try (right; reflexivity).
  left; reflexivity.
Defined.

Lemma genre_update_post_absent_throws_witness :
  handle (genre_update_post (mkRequest 3 (form "Epic" "Rob" "Roy" "" "" 0 0) 10))
    catalogue =
    (catalogue,
     [Genre_findByIdAndUpdate 3 (mkGenre 3 "Epic");
      next (TypeError "Cannot read properties of null (reading 'url')")])
  /\ handle (author_update_post (mkRequest 3 (form "Epic" "Rob" "Roy" "" "" 0 0) 10))
       catalogue =
       (catalogue,
        [Author_findByIdAndUpdate 3 (mkAuthor 3 "Rob" "Roy" None None);
         res_redirect "/catalog/author/3"]).
Proof.
  destruct (genre_update_post_absent_throws catalogue
              (mkRequest 3 (form "Epic" "Rob" "Roy" "" "" 0 0) 10)
              eq_refl eq_refl) as [G A].
  split; [exact G | exact (A eq_refl eq_refl)].
Defined.

(* ================================================================= *)
(** * Further properties of the handlers *)

(** ** What the handlers leave alone *)

(** X1: the ten GET handlers only read: whatever the store and the request,
    the store is left as it was and no save, update or delete is called. *)
Theorem get_handlers_read_only (s : Store) (req : Request) :
  (readOnly (author_list req) s /\ readOnly (author_detail req) s
   /\ readOnly (author_create_get req) s /\ readOnly (author_delete_get req) s
   /\ readOnly (author_update_get req) s)
  /\
  (readOnly (genre_list req) s /\ readOnly (genre_detail req) s
   /\ readOnly (genre_create_get req) s /\ readOnly (genre_delete_get req) s
   /\ readOnly (genre_update_get req) s).
Proof.
  unfold readOnly,
    author_list, author_detail, author_create_get, author_delete_get,
    author_update_get, genre_list, genre_detail, genre_create_get,
    genre_delete_get, genre_update_get.
  repeat split; run; branch; reflexivity.
Qed.

Section Discipline.
Context `{Collaborators}.

(** X2: the six POST handlers answer every request exactly once: on each of
    their paths (validation failure, duplicate found, insert, refused or
    performed delete, update, store or null-dereference error) the trace
    holds one call among [res.render], [res.redirect] and [next]. *)
Theorem post_handlers_answer_once (s : Store) (req : Request) :
  responses (snd (handle (author_create_post req) s)) = 1
  /\ responses (snd (handle (author_delete_post req) s)) = 1
  /\ responses (snd (handle (author_update_post req) s)) = 1
  /\ responses (snd (handle (genre_create_post req) s)) = 1
  /\ responses (snd (handle (genre_delete_post req) s)) = 1
  /\ responses (snd (handle (genre_update_post req) s)) = 1.
Proof.
  unfold author_create_post, author_delete_post, author_update_post,
    genre_create_post, genre_delete_post, genre_update_post.
  repeat split.
  - destruct (author_errors (body req)); run; branch; reflexivity.
  - run; branch; reflexivity.
  - destruct (author_errors (body req)); run; branch; reflexivity.
  - destruct (snd (genre_create_chain (name (body req)))); run; branch; reflexivity.
  - run; branch; reflexivity.
  - destruct (snd (genre_update_chain (name (body req)))); run; branch; reflexivity.
Qed.

(** X3: no POST handler touches a collection other than its own: the
    Author handlers leave Genres and Books as they were, the Genre handlers
    leave Authors and Books as they were; in particular no handler ever
    removes or rewrites a Book. *)
Theorem post_handlers_frame (s : Store) (req : Request) :
  (forall h, In h [author_create_post req; author_delete_post req;
                   author_update_post req] ->
     genres (fst (handle h s)) = genres s /\ books (fst (handle h s)) = books s)
  /\
  (forall h, In h [genre_create_post req; genre_delete_post req;
                   genre_update_post req] ->
     authors (fst (handle h s)) = authors s /\ books (fst (handle h s)) = books s).
Proof.
  split; intros h [<-|[<-|[<-|[]]]];
    unfold author_create_post, author_delete_post, author_update_post,
      genre_create_post, genre_delete_post, genre_update_post.
  - destruct (author_errors (body req)); run; branch; split; reflexivity.
  - run; branch; split; reflexivity.
  - destruct (author_errors (body req)); run; branch; split; reflexivity.
  - destruct (snd (genre_create_chain (name (body req)))); run; branch;
      split; reflexivity.
  - run; branch; split; reflexivity.
  - destruct (snd (genre_update_chain (name (body req)))); run; branch;
      split; reflexivity.
Qed.

End Discipline.

(** ** The sanitizers *)

Lemma ltrim_first (s : string) (c : ascii) :
  firstChar (ltrim s) = Some c -> isSpace c = false.
Proof.
  induction s as [|a r IH]; simpl; [discriminate|].
  destruct (isSpace a) eqn:E; [exact IH|].
  simpl. intros [= <-]. exact E.
Qed.

Lemma ltrim_fixed (s : string) :
  (forall c, firstChar s = Some c -> isSpace c = false) -> ltrim s = s.
Proof.
  destruct s as [|a r]; simpl; [reflexivity|].
  intros F. now rewrite (F a eq_refl).
Qed.

Lemma rtrim_first (s : string) (c : ascii) :
  firstChar (rtrim s) = Some c -> firstChar s = Some c.
Proof.
  destruct s as [|a r]; simpl; [discriminate|].
  destruct (rtrim r); [destruct (isSpace a); [discriminate|] |]; simpl; congruence.
Qed.

Lemma rtrim_last (s : string) (c : ascii) :
  lastChar (rtrim s) = Some c -> isSpace c = false.
Proof.
  induction s as [|a r IH]; simpl; [discriminate|].
  destruct (rtrim r) as [|b r'] eqn:R.
  - destruct (isSpace a) eqn:E; simpl; [discriminate|].
    intros [= <-]. exact E.
  - exact IH.
Qed.

Lemma rtrim_idempotent (s : string) : rtrim (rtrim s) = rtrim s.
Proof.
  induction s as [|a r IH]; simpl; [reflexivity|].
  destruct (rtrim r) as [|b r'] eqn:R.
  - destruct (isSpace a) eqn:E; simpl; [reflexivity|]. now rewrite E.
  - change (rtrim (String a (String b r'))) with
      (match rtrim (String b r') with
       | EmptyString => if isSpace a then EmptyString else String a EmptyString
       | x => String a x
       end).
    now rewrite IH.
Qed.

Lemma ltrim_allSpace (s : string) : ltrim s = EmptyString <-> allSpace s = true.
Proof.
  induction s as [|a r IH]; simpl; [tauto|].
  destruct (isSpace a); simpl; [exact IH|].
  split; discriminate.
Qed.

Lemma rtrim_allSpace (s : string) : rtrim s = EmptyString <-> allSpace s = true.
Proof.
  induction s as [|a r IH]; simpl; [tauto|].
  destruct (rtrim r) as [|b r'] eqn:R.
  - destruct (isSpace a); simpl.
    + split; [intros _; now apply IH | reflexivity].
    + split; discriminate.
  - split; [discriminate|].
    intros E. apply andb_true_iff in E. destruct E as [_ E].
    apply IH in E. discriminate E.
Qed.

Lemma allSpace_ltrim (s : string) : allSpace (ltrim s) = true -> allSpace s = true.
Proof.
  induction s as [|a r IH]; simpl; [reflexivity|].
  destruct (isSpace a) eqn:E; simpl; [exact IH|].
  now rewrite E.
Qed.

Lemma trim_allSpace (s : string) : trim s = EmptyString <-> allSpace s = true.
Proof.
  unfold trim. rewrite rtrim_allSpace. split.
  - apply allSpace_ltrim.
  - intros E. apply ltrim_allSpace in E. now rewrite E.
Qed.

Lemma trim_first (s : string) (c : ascii) :
  firstChar (trim s) = Some c -> isSpace c = false.
Proof.
  unfold trim. intros F. apply rtrim_first in F. now apply ltrim_first in F.
Qed.

(** [trim] leaves a string that neither starts nor ends with a whitespace
    character, is empty exactly when its argument is made of whitespace
    only, and changes nothing when applied a second time. *)
Lemma trim_spec (s : string) :
  (forall c, firstChar (trim s) = Some c -> isSpace c = false)
  /\ (forall c, lastChar (trim s) = Some c -> isSpace c = false)
  /\ (trim s = EmptyString <-> allSpace s = true)
  /\ trim (trim s) = trim s.
Proof.
  split; [apply trim_first|].
  split; [intros c; unfold trim; apply rtrim_last|].
  split; [apply trim_allSpace|].
  unfold trim at 1. rewrite (ltrim_fixed (trim s)) by apply trim_first.
  unfold trim. apply rtrim_idempotent.
Qed.


Lemma anyChar_app (p : ascii -> bool) (s t : string) :
  anyChar p (s ++ t)%string = anyChar p s || anyChar p t.
Proof.
  induction s as [|c s IH]; simpl; [reflexivity|].
  now rewrite IH, orb_assoc.
Qed.

Lemma escape_char_markup_free (c : ascii) :
  anyChar isMarkup (escape_char c) = false.
Proof. destruct c as [[] [] [] [] [] [] [] []]; reflexivity. Qed.

Lemma escape_markup_free (s : string) : anyChar isMarkup (escape s) = false.
Proof.
  induction s as [|c s IH]; simpl; [reflexivity|].
  now rewrite anyChar_app, escape_char_markup_free, IH.
Qed.

Lemma escape_char_fixed (c : ascii) :
  isEscaped c = false -> escape_char c = String c EmptyString.
Proof.
  destruct c as [[] [] [] [] [] [] [] []]; intros E;
    try discriminate E; reflexivity.
Qed.

Lemma escape_char_grows (c : ascii) :
  isEscaped c = true -> 2 <= String.length (escape_char c).
Proof.
  destruct c as [[] [] [] [] [] [] [] []]; intros E;
    try discriminate E; simpl; lia.
Qed.

Lemma escape_grows (s : string) :
  anyChar isEscaped s = true -> String.length s < String.length (escape s).
Proof.
  induction s as [|c s IH]; simpl; [discriminate|].
  rewrite string_length_app. intros E.
  pose proof (escape_length s) as L.
  pose proof (escape_char_length c) as L1.
  destruct (isEscaped c) eqn:C.
  - pose proof (escape_char_grows c C). lia.
  - simpl in E. specialize (IH E). lia.
Qed.

Lemma escape_fixed (s : string) : anyChar isEscaped s = false -> escape s = s.
Proof.
  induction s as [|c s IH]; simpl; [reflexivity|].
  intros E. apply orb_false_iff in E. destruct E as [C E].
  now rewrite (escape_char_fixed c C), IH.
Qed.

(** [escape] never shortens a string; its result holds none of the
    characters double quote, quote, less-than, greater-than, slash,
    backslash and backquote; and it returns its argument unchanged exactly
    when the argument holds none of these nor an ampersand. *)
Lemma escape_spec (s : string) :
  String.length s <= String.length (escape s)
  /\ anyChar isMarkup (escape s) = false
  /\ (escape s = s <-> anyChar isEscaped s = false).
Proof.
  split; [apply escape_length|].
  split; [apply escape_markup_free|].
  split; [|apply escape_fixed].
  intros E. destruct (anyChar isEscaped s) eqn:A; [|reflexivity].
  apply escape_grows in A. rewrite E in A. lia.
Qed.


Lemma rtrim_fixed (s : string) :
  (forall c, lastChar s = Some c -> isSpace c = false) -> rtrim s = s.
Proof.
  induction s as [|a r IH]; simpl; [reflexivity|].
  destruct r as [|b r'].
  - intros L. simpl. now rewrite (L a eq_refl).
  - intros L. rewrite (IH L). reflexivity.
Qed.

Lemma trim_fixed (s : string) :
  (forall c, firstChar s = Some c -> isSpace c = false) ->
  (forall c, lastChar s = Some c -> isSpace c = false) ->
  trim s = s.
Proof.
  intros F L. unfold trim. rewrite (ltrim_fixed s F). now apply rtrim_fixed.
Qed.

Lemma lastChar_app (u t : string) :
  lastChar (u ++ t)%string =
    match t with EmptyString => lastChar u | _ => lastChar t end.
Proof.
  induction u as [|a u IH]; simpl.
  - now destruct t.
  - rewrite IH. destruct t as [|b t']; [now destruct u|].
    destruct (u ++ String b t')%string eqn:E; [|reflexivity].
    destruct u; discriminate E.
Qed.

Lemma escape_char_first (a c : ascii) (t : string) :
  firstChar (escape_char a ++ t)%string = Some c ->
  isSpace a = false -> isSpace c = false.
Proof.
  destruct a as [[] [] [] [] [] [] [] []]; simpl; intros [= <-] E;
    try discriminate E; reflexivity.
Qed.

Lemma escape_char_last (a c : ascii) :
  lastChar (escape_char a) = Some c -> isSpace a = false -> isSpace c = false.
Proof.
  destruct a as [[] [] [] [] [] [] [] []]; simpl; intros [= <-] E;
    try discriminate E; reflexivity.
Qed.

Lemma escape_first (s : string) :
  (forall c, firstChar s = Some c -> isSpace c = false) ->
  forall c, firstChar (escape s) = Some c -> isSpace c = false.
Proof.
  destruct s as [|a r]; simpl; [discriminate|].
  intros F c E. apply (escape_char_first a c _ E). now apply F.
Qed.

Lemma escape_last (s : string) :
  (forall c, lastChar s = Some c -> isSpace c = false) ->
  forall c, lastChar (escape s) = Some c -> isSpace c = false.
Proof.
  induction s as [|a r IH]; [discriminate|].
  intros L c. change (escape (String a r)) with (escape_char a ++ escape r)%string.
  rewrite lastChar_app. destruct (escape r) as [|b t] eqn:E.
  - apply escape_empty in E. subst r. intros K.
    apply (escape_char_last a c K). now apply L.
  - apply IH. intros d D. apply L. simpl.
    destruct r; [discriminate E | exact D].
Qed.

Lemma isEscaped_escape_char (c : ascii) :
  anyChar isEscaped (escape_char c) = isEscaped c.
Proof. destruct c as [[] [] [] [] [] [] [] []]; reflexivity. Qed.

Lemma isEscaped_escape (s : string) :
  anyChar isEscaped (escape s) = anyChar isEscaped s.
Proof.
  induction s as [|c s IH]; simpl; [reflexivity|].
  now rewrite anyChar_app, isEscaped_escape_char, IH.
Qed.

Lemma sanitize_trimmed (v : string) : trim (sanitize v) = sanitize v.
Proof.
  unfold sanitize. destruct (trim_spec v) as (F & L & _ & _).
  apply trim_fixed; [now apply escape_first | now apply escape_last].
Qed.

(** X4: the value the four name chains (Genre create, Genre update, Author
    first name, Author family name) leave in [req.body] is the same
    function of the submitted value, trimmed then escaped.  It neither
    starts nor ends with whitespace, holds no double quote, quote,
    less-than, greater-than, slash, backslash or backquote, is at least as
    long as the trimmed value, and is empty exactly when the submitted
    value is made of whitespace only. *)
Theorem sanitized_name_spec (v : string) :
  (fst (genre_create_chain v) = sanitize v /\ fst (genre_update_chain v) = sanitize v
   /\ fst (first_name_chain v) = sanitize v /\ fst (family_name_chain v) = sanitize v)
  /\ (forall c, firstChar (sanitize v) = Some c -> isSpace c = false)
  /\ (forall c, lastChar (sanitize v) = Some c -> isSpace c = false)
  /\ anyChar isMarkup (sanitize v) = false
  /\ String.length (trim v) <= String.length (sanitize v)
  /\ (sanitize v = EmptyString <-> allSpace v = true).
Proof.
  destruct (trim_spec v) as (F & L & E & _).
  split; [repeat split|].
  split; [now apply escape_first|].
  split; [now apply escape_last|].
  split; [apply escape_markup_free|].
  split; [apply escape_length|].
  rewrite <- E. unfold sanitize. split.
  - apply escape_empty.
  - intros ->. reflexivity.
Qed.

(** X5: sanitizing is not neutral on its own results.  Submitting again the
    value a name chain produced gives that value back exactly when the
    trimmed original held none of the eight characters [escape] replaces;
    otherwise the ampersand of an entity is escaped once more and the
    result is strictly longer. *)
Theorem sanitize_twice (v : string) :
  (sanitize (sanitize v) = sanitize v <-> anyChar isEscaped (trim v) = false)
  /\ (anyChar isEscaped (trim v) = true ->
       String.length (sanitize v) < String.length (sanitize (sanitize v))).
Proof.
  assert (S2 : sanitize (sanitize v) = escape (sanitize v)).
  { unfold sanitize at 1. now rewrite sanitize_trimmed. }
  rewrite S2. unfold sanitize.
  destruct (escape_spec (escape (trim v))) as (_ & _ & I).
  rewrite isEscaped_escape in I. split; [exact I|].
  intros A. apply escape_grows. now rewrite isEscaped_escape.
Qed.

(** ** The chains *)

Section Chains.
Context `{Collaborators}.



(** X7: a Genre name made of whitespace only (the empty name included) is
    refused by both Genre forms: each handler renders its form again with
    the empty name as candidate and the single message of its chain, and
    makes no call on the store. *)
Theorem genre_blank_name_rejected (s : Store) (req : Request) :
  allSpace (name (body req)) = true ->
  handle (genre_create_post req) s =
    (s, [res_render "genre_form"
           (genre_form_locals "Create Genre"
              (Some (mkGenre (generated_id req) ""))
              (Some [mkFieldError "name"
                       "Genre name must contain at least 3 characters"]))])
  /\ handle (genre_update_post req) s =
       (s, [res_render "genre_form"
              (genre_form_locals "Update Genre"
                 (Some (mkGenre (params_id req) ""))
                 (Some [mkFieldError "name" "Invalid Genre Value"]))]).
Proof.
  intros A. apply trim_allSpace in A.
  unfold genre_create_post, genre_update_post, genre_create_chain,
    genre_update_chain.
  rewrite A. split; reflexivity.
Qed.

End Chains.


Lemma genre_blank_name_rejected_witness :
  fst (handle (genre_create_post (post_genre "   " 5 10)) catalogue) = catalogue
  /\ fst (handle (genre_update_post (post_genre "   " 5 10)) catalogue) = catalogue.
Proof.
  destruct (genre_blank_name_rejected catalogue (post_genre "   " 5 10) eq_refl)
    as [C U].
  now rewrite C, U.
Defined.

(** ** What a POST handler can do to its collection *)

Section Outcomes.
Context `{Collaborators}.

Lemma author_create_post_collision (s : Store) (req : Request) (a : AuthorDoc) :
  author_errors (body req) = [] ->
  let cand := new_Author (generated_id req) (body req) in
  find (Author.hasName (a_first_name cand) (a_family_name cand)) (authors s) = None ->
  find (Author.hasId (generated_id req)) (authors s) = Some a ->
  handle (author_create_post req) s =
    (s, [Author_findOne (a_first_name cand) (a_family_name cand);
         Author_save cand; next (MongoServerError 11000)]).
Proof.
  intros V cand F I. unfold author_create_post. rewrite V. run.
  fold cand. rewrite F. change (a_id cand) with (generated_id req).
  rewrite I. reflexivity.
Qed.

Lemma genre_create_post_collision_trace (s : Store) (req : Request) (g : GenreDoc) :
  snd (genre_create_chain (name (body req))) = [] ->
  find (Genre.hasName (genre_key req)) (genres s) = None ->
  find (Genre.hasId (generated_id req)) (genres s) = Some g ->
  handle (genre_create_post req) s =
    (s, [Genre_findOne (genre_key req);
         Genre_save (mkGenre (generated_id req) (genre_key req));
         next (MongoServerError 11000)]).
Proof.
  intros V F I. unfold genre_create_post, genre_key in *. rewrite V. run.
  rewrite F. cbn [g_id]. rewrite I. reflexivity.
Qed.

Lemma genre_create_post_outcome (s : Store) (req : Request) :
  fst (handle (genre_create_post req) s) = s
  \/ (snd (genre_create_chain (name (body req))) = []
      /\ find (Genre.hasName (genre_key req)) (genres s) = None
      /\ find (Genre.hasId (generated_id req)) (genres s) = None
      /\ fst (handle (genre_create_post req) s) =
           mkStore (authors s)
             (genres s ++ [mkGenre (generated_id req) (genre_key req)]) (books s)).
Proof.
  destruct (snd (genre_create_chain (name (body req)))) as [|e r] eqn:V.
  - destruct (find (Genre.hasName (genre_key req)) (genres s)) as [g|] eqn:F.
    + left. now rewrite (genre_create_post_existing s req g V F).
    + destruct (find (Genre.hasId (generated_id req)) (genres s)) as [g|] eqn:I.
      * left. now rewrite (genre_create_post_collision_trace s req g V F I).
      * right. now rewrite (genre_create_post_new s req V F I).
  - left. rewrite genre_create_post_rejected; [reflexivity|].
    rewrite V. discriminate.
Qed.

Lemma author_create_post_outcome (s : Store) (req : Request) :
  let cand := new_Author (generated_id req) (body req) in
  fst (handle (author_create_post req) s) = s
  \/ (author_errors (body req) = []
      /\ find (Author.hasName (a_first_name cand) (a_family_name cand))
           (authors s) = None
      /\ find (Author.hasId (generated_id req)) (authors s) = None
      /\ fst (handle (author_create_post req) s) =
           mkStore (authors s ++ [cand]) (genres s) (books s)).
Proof.
  intros cand.
  destruct (author_errors (body req)) as [|e r] eqn:V.
  - destruct (find (Author.hasName (a_first_name cand) (a_family_name cand))
                (authors s)) as [a|] eqn:F.
    + left. now rewrite (author_create_post_existing s req a V F).
    + destruct (find (Author.hasId (generated_id req)) (authors s)) as [a|] eqn:I.
      * left. now rewrite (author_create_post_collision s req a V F I).
      * right. now rewrite (author_create_post_new s req V F I).
  - left. rewrite author_create_post_rejected; [reflexivity|].
    rewrite V. discriminate.
Qed.

Lemma author_update_post_outcome (s : Store) (req : Request) :
  fst (handle (author_update_post req) s) = s
  \/ (author_errors (body req) = []
      /\ fst (handle (author_update_post req) s) =
           mkStore (updateOne (Author.hasId (params_id req))
                      (new_Author (params_id req) (body req)) (authors s))
             (genres s) (books s)).
Proof.
  destruct (author_errors (body req)) as [|e r] eqn:V.
  - right. now rewrite (author_update_post_accepted s req V).
  - left. rewrite author_update_post_rejected; [reflexivity|].
    rewrite V. discriminate.
Qed.

Lemma genre_update_post_outcome (s : Store) (req : Request) :
  fst (handle (genre_update_post req) s) = s
  \/ (snd (genre_update_chain (name (body req))) = []
      /\ fst (handle (genre_update_post req) s) =
           mkStore (authors s)
             (updateOne (Genre.hasId (params_id req))
                (mkGenre (params_id req)
                   (fst (genre_update_chain (name (body req))))) (genres s))
             (books s)).
Proof.
  destruct (snd (genre_update_chain (name (body req)))) as [|e r] eqn:V.
  - destruct (find (Genre.hasId (params_id req)) (genres s)) as [g|] eqn:F.
    + right. now rewrite (genre_update_post_found s req g V F).
    + left. now rewrite (genre_update_post_missing s req V F).
  - left. rewrite genre_update_post_rejected; [reflexivity|].
    rewrite V. discriminate.
Qed.

Lemma author_delete_post_outcome (s : Store) (req : Request) :
  fst (handle (author_delete_post req) s) = s
  \/ (books_of_author s (params_id req) = []
      /\ fst (handle (author_delete_post req) s) =
           mkStore (deleteOne (Author.hasId (authorid (body req))) (authors s))
             (genres s) (books s)).
Proof.
  destruct (books_of_author s (params_id req)) as [|b r] eqn:B.
  - right. now rewrite (author_delete_post_free s req B).
  - left. rewrite author_delete_post_blocked; [reflexivity|].
    rewrite B. discriminate.
Qed.

Lemma genre_delete_post_outcome (s : Store) (req : Request) :
  fst (handle (genre_delete_post req) s) = s
  \/ (books_of_genre s (params_id req) = []
      /\ fst (handle (genre_delete_post req) s) =
           mkStore (authors s)
             (deleteOne (Genre.hasId (genreid (body req))) (genres s)) (books s)).
Proof.
  destruct (books_of_genre s (params_id req)) as [|b r] eqn:B.
  - right. now rewrite (genre_delete_post_free s req B).
  - left. rewrite genre_delete_post_blocked; [reflexivity|].
    rewrite B. discriminate.
Qed.

Lemma Forall_deleteOne {A} (P : A -> Prop) (p : A -> bool) (l : list A) :
  Forall P l -> Forall P (deleteOne p l).
Proof.
  induction 1 as [|x l Px Hl IH]; simpl; [constructor|].
  destruct (p x); [exact Hl | now constructor].
Qed.

Lemma Forall_updateOne {A} (P : A -> Prop) (p : A -> bool) (d : A) (l : list A) :
  P d -> Forall P l -> Forall P (updateOne p d l).
Proof.
  intros Pd. induction 1 as [|x l Px Hl IH]; simpl; [constructor|].
  destruct (p x); now constructor.
Qed.

Lemma Forall_snoc {A} (P : A -> Prop) (d : A) (l : list A) :
  P d -> Forall P l -> Forall P (l ++ [d]).
Proof. intros Pd Hl. apply Forall_app. split; [exact Hl | now constructor]. Qed.

End Outcomes.

(** ** Invariants of the collections *)

Section Invariants.
Context `{Collaborators}.

Lemma allAlnum_not_escaped_char (c : ascii) :
  isAlnumChar c = true -> isEscaped c = false.
Proof.
  destruct c as [[] [] [] [] [] [] [] []]; intros E;
    try discriminate E; reflexivity.
Qed.

Lemma allAlnum_not_escaped (v : string) :
  allAlnum v = true -> anyChar isEscaped v = false.
Proof.
  induction v as [|c v IH]; simpl; [reflexivity|].
  intros E. apply andb_true_iff in E. destruct E as [C E].
  now rewrite (allAlnum_not_escaped_char c C), IH.
Qed.

Lemma accepted_name (v : string) :
  isAlphanumeric (trim v) = true ->
  escape (trim v) = trim v /\ validName (trim v).
Proof.
  intros A. apply isAlphanumeric_iff in A. split; [|exact A].
  apply escape_fixed, allAlnum_not_escaped, A.
Qed.

Lemma new_Author_accepted (b : Body) (id : ObjectId) :
  author_errors b = [] ->
  a_first_name (new_Author id b) = trim (first_name b)
  /\ a_family_name (new_Author id b) = trim (family_name b)
  /\ validName (a_first_name (new_Author id b))
  /\ validName (a_family_name (new_Author id b)).
Proof.
  intros V. apply author_errors_nil in V. destruct V as (F & L & _).
  destruct (accepted_name _ F) as [EF VF].
  destruct (accepted_name _ L) as [EL VL].
  unfold new_Author, first_name_chain, family_name_chain.
  cbn [a_first_name a_family_name fst]. rewrite EF, EL. tauto.
Qed.

(** X8: the names of an Author submission that passes validation are kept
    as trimmed: escaping changes nothing in them, and both are non-empty
    runs of letters and digits, whatever identifier the candidate gets. *)
Theorem accepted_author_names (b : Body) (id : ObjectId) :
  author_errors b = [] ->
  a_first_name (new_Author id b) = trim (first_name b)
  /\ a_family_name (new_Author id b) = trim (family_name b)
  /\ validName (a_first_name (new_Author id b))
  /\ validName (a_family_name (new_Author id b)).
Proof. apply new_Author_accepted. Qed.

(** X9: if every stored Author has a first name and a family name that are
    non-empty runs of letters and digits, this still holds after any of the
    three Author POST handlers, on any request. *)
Theorem author_names_stay_valid (s : Store) (req : Request) (h : M unit) :
  In h [author_create_post req; author_update_post req; author_delete_post req] ->
  Forall (fun a => validName (a_first_name a) /\ validName (a_family_name a))
    (authors s) ->
  Forall (fun a => validName (a_first_name a) /\ validName (a_family_name a))
    (authors (fst (handle h s))).
Proof.
  intros [<-|[<-|[<-|[]]]] Inv.
  - destruct (author_create_post_outcome s req) as [E|(V & _ & _ & E)];
      rewrite E; [exact Inv|]. cbn [authors].
    apply Forall_snoc; [|exact Inv].
    now destruct (new_Author_accepted (body req) (generated_id req) V)
      as (_ & _ & VF & VL).
  - destruct (author_update_post_outcome s req) as [E|(V & E)];
      rewrite E; [exact Inv|]. cbn [authors].
    apply Forall_updateOne; [|exact Inv].
    now destruct (new_Author_accepted (body req) (params_id req) V)
      as (_ & _ & VF & VL).
  - destruct (author_delete_post_outcome s req) as [E|(_ & E)];
      rewrite E; [exact Inv|]. cbn [authors].
    now apply Forall_deleteOne.
Qed.

(** X10: if every stored Genre name has at least three characters, this
    still holds after [genre_create_post] and after [genre_delete_post], on
    any request: the create chain asks for three characters before
    escaping, and escaping never shortens. *)
Theorem genre_names_stay_long (s : Store) (req : Request) (h : M unit) :
  In h [genre_create_post req; genre_delete_post req] ->
  Forall (fun g => 3 <= String.length (g_name g)) (genres s) ->
  Forall (fun g => 3 <= String.length (g_name g)) (genres (fst (handle h s))).
Proof.
  intros [<-|[<-|[]]] Inv.
  - destruct (genre_create_post_outcome s req) as [E|(V & _ & _ & E)];
      rewrite E; [exact Inv|]. cbn [genres].
    apply Forall_snoc; [|exact Inv]. cbn [g_name].
    unfold genre_key, genre_create_chain in *. cbn [fst snd] in *.
    apply check_nil in V. unfold isLength in V. apply Nat.leb_le in V.
    pose proof (escape_length (trim (name (body req)))). lia.
  - destruct (genre_delete_post_outcome s req) as [E|(_ & E)];
      rewrite E; [exact Inv|]. cbn [genres].
    now apply Forall_deleteOne.
Qed.

(** X11: if no stored Genre name holds one of the characters double quote,
    quote, less-than, greater-than, slash, backslash and backquote, this
    still holds after any of the three Genre POST handlers: every name
    they write went through [escape]. *)
Theorem genre_names_stay_escaped (s : Store) (req : Request) (h : M unit) :
  In h [genre_create_post req; genre_update_post req; genre_delete_post req] ->
  Forall (fun g => anyChar isMarkup (g_name g) = false) (genres s) ->
  Forall (fun g => anyChar isMarkup (g_name g) = false) (genres (fst (handle h s))).
Proof.
  intros [<-|[<-|[<-|[]]]] Inv.
  - destruct (genre_create_post_outcome s req) as [E|(_ & _ & _ & E)];
      rewrite E; [exact Inv|]. cbn [genres].
    apply Forall_snoc; [|exact Inv]. apply escape_markup_free.
  - destruct (genre_update_post_outcome s req) as [E|(_ & E)];
      rewrite E; [exact Inv|]. cbn [genres].
    apply Forall_updateOne; [|exact Inv]. apply escape_markup_free.
  - destruct (genre_delete_post_outcome s req) as [E|(_ & E)];
      rewrite E; [exact Inv|]. cbn [genres].
    now apply Forall_deleteOne.
Qed.

Lemma NoDup_keys_snoc {A K} (key : A -> K) (l : list A) (d : A) :
  NoDup (map key l) -> ~ In (key d) (map key l) -> NoDup (map key (l ++ [d])).
Proof.
  induction l as [|x l IH]; simpl; intros N F.
  - constructor; [intros [] | constructor].
  - inversion N as [|k ks Nx Nl]; subst. constructor.
    + rewrite map_app, in_app_iff. simpl. intros [I|[I|[]]]; [tauto|].
      apply F. now left.
    + apply IH; [exact Nl|]. intros I. apply F. now right.
Qed.

Lemma deleteOne_keys_incl {A K} (key : A -> K) (p : A -> bool) (l : list A) (k : K) :
  In k (map key (deleteOne p l)) -> In k (map key l).
Proof.
  induction l as [|x l IH]; simpl; [tauto|].
  destruct (p x); simpl; [tauto|]. intros [E|I]; [now left | right; now apply IH].
Qed.

Lemma NoDup_keys_deleteOne {A K} (key : A -> K) (p : A -> bool) (l : list A) :
  NoDup (map key l) -> NoDup (map key (deleteOne p l)).
Proof.
  induction l as [|x l IH]; simpl; intros N; [constructor|].
  inversion N as [|k ks Nx Nl]; subst.
  destruct (p x); [exact Nl|]. simpl. constructor; [|now apply IH].
  intros I. apply Nx. now apply deleteOne_keys_incl in I.
Qed.

Lemma find_none_key {A K} (key : A -> K) (p : A -> bool) (k : K) (l : list A) :
  (forall x, key x = k -> p x = true) ->
  find p l = None -> ~ In k (map key l).
Proof.
  intros Hp F I. apply in_map_iff in I. destruct I as [x [E I]].
  pose proof (find_none p l F x I) as N. rewrite (Hp x E) in N. discriminate.
Qed.

(** X12: identifiers stay unique.  If no two stored Authors (resp. Genres)
    share an identifier, this still holds after any of the three Author
    (resp. Genre) POST handlers: the insert is refused on an identifier in
    use, the update writes the identifier it selected by, and the delete
    only removes. *)
Theorem identifiers_stay_unique (s : Store) (req : Request) :
  (forall h, In h [author_create_post req; author_update_post req;
                   author_delete_post req] ->
     NoDup (map a_id (authors s)) -> NoDup (map a_id (authors (fst (handle h s)))))
  /\
  (forall h, In h [genre_create_post req; genre_update_post req;
                   genre_delete_post req] ->
     NoDup (map g_id (genres s)) -> NoDup (map g_id (genres (fst (handle h s))))).
Proof.
  split; intros h [<-|[<-|[<-|[]]]] N.
  - destruct (author_create_post_outcome s req) as [E|(_ & _ & I & E)];
      rewrite E; [exact N|]. cbn [authors].
    apply NoDup_keys_snoc; [exact N|]. cbn [a_id new_Author].
    apply (find_none_key a_id _ _ _ (fun x E' => proj2 (author_hasId_iff _ x) E') I).
  - destruct (author_update_post_outcome s req) as [E|(_ & E)];
      rewrite E; [exact N|]. cbn [authors].
    rewrite updateOne_keys; [exact N|].
    intros x Hx. apply author_hasId_iff in Hx. exact Hx.
  - destruct (author_delete_post_outcome s req) as [E|(_ & E)];
      rewrite E; [exact N|]. cbn [authors].
    now apply NoDup_keys_deleteOne.
  - destruct (genre_create_post_outcome s req) as [E|(_ & _ & I & E)];
      rewrite E; [exact N|]. cbn [genres].
    apply NoDup_keys_snoc; [exact N|]. cbn [g_id].
    apply (find_none_key g_id _ _ _ (fun x E' => proj2 (genre_hasId_iff _ x) E') I).
  - destruct (genre_update_post_outcome s req) as [E|(_ & E)];
      rewrite E; [exact N|]. cbn [genres].
    rewrite updateOne_keys; [exact N|].
    intros x Hx. apply genre_hasId_iff in Hx. exact Hx.
  - destruct (genre_delete_post_outcome s req) as [E|(_ & E)];
      rewrite E; [exact N|]. cbn [genres].
    now apply NoDup_keys_deleteOne.
Qed.


End Invariants.

(** ** Deleting and looking up *)

Lemma find_deleteOne_same {A K} (key : A -> K) (p : A -> bool) (k : K) (l : list A) :
  (forall x, p x = true <-> key x = k) ->
  NoDup (map key l) -> find p (deleteOne p l) = None.
Proof.
  intros Hp. induction l as [|x l IH]; simpl; intros N; [reflexivity|].
  inversion N as [|k' ks Nx Nl]; subst.
  destruct (p x) eqn:Px.
  - apply find_none_iff. intros y Hy.
    destruct (p y) eqn:Py; [|reflexivity].
    exfalso. apply Nx. apply Hp in Px. apply Hp in Py.
    rewrite Px, <- Py. now apply in_map.
  - simpl. rewrite Px. now apply IH.
Qed.

Lemma find_deleteOne_other {A} (p q : A -> bool) (l : list A) :
  (forall x, q x = true -> p x = false) ->
  find q (deleteOne p l) = find q l.
Proof.
  intros Hq. induction l as [|x l IH]; simpl; [reflexivity|].
  destruct (p x) eqn:Px.
  - destruct (q x) eqn:Qx; [|reflexivity].
    rewrite (Hq x Qx) in Px. discriminate.
  - simpl. now rewrite IH.
Qed.

Lemma deleteOne_absent_id {A} (p : A -> bool) (l : list A) :
  find p l = None -> deleteOne p l = l.
Proof.
  induction l as [|x l IH]; simpl; [reflexivity|].
  destruct (p x); [discriminate | intros E; now rewrite IH].
Qed.

Lemma hasId_other (i j : ObjectId) (k : ObjectId) :
  i <> j -> N.eqb k i = true -> N.eqb k j = false.
Proof.
  intros D E. apply N.eqb_eq in E. subst k. now apply N.eqb_neq.
Qed.

(** X14: a delete confirmation whose form names an identifier that no
    stored document has, posted to a route that no Book references, is
    answered like a successful delete: the delete is called, finds nothing,
    the store is unchanged and the handler redirects to the list. *)
Theorem delete_post_absent_target (s : Store) (req : Request) :
  (books_of_author s (params_id req) = [] ->
   find (Author.hasId (authorid (body req))) (authors s) = None ->
   handle (author_delete_post req) s =
     (s, [Author_findById (params_id req);
          Book_find_author (params_id req) ["title"; "summary"];
          Author_findByIdAndDelete (authorid (body req));
          res_redirect "/catalog/authors"]))
  /\
  (books_of_genre s (params_id req) = [] ->
   find (Genre.hasId (genreid (body req))) (genres s) = None ->
   handle (genre_delete_post req) s =
     (s, [Genre_findById (params_id req);
          Book_find_genre (params_id req) ["title"; "sumarry"];
          Genre_findByIdAndDelete (genreid (body req));
          res_redirect "/catalog/genres"])).
Proof.
  split; intros B F.
  - rewrite (author_delete_post_free s req B), (deleteOne_absent_id _ _ F).
    now rewrite store_eta.
  - rewrite (genre_delete_post_free s req B), (deleteOne_absent_id _ _ F).
    now rewrite store_eta.
Qed.

(** X15: delete then look up.  When identifiers are unique in the
    collection and no Book references the route identifier, after the
    delete handler the form identifier names no document any more, and the
    lookup of every other identifier answers as before. *)
Theorem delete_post_then_lookup (s : Store) (req : Request) :
  (books_of_author s (params_id req) = [] ->
   NoDup (map a_id (authors s)) ->
   let s' := fst (handle (author_delete_post req) s) in
   find (Author.hasId (authorid (body req))) (authors s') = None
   /\ forall id, id <> authorid (body req) ->
        find (Author.hasId id) (authors s') = find (Author.hasId id) (authors s))
  /\
  (books_of_genre s (params_id req) = [] ->
   NoDup (map g_id (genres s)) ->
   let s' := fst (handle (genre_delete_post req) s) in
   find (Genre.hasId (genreid (body req))) (genres s') = None
   /\ forall id, id <> genreid (body req) ->
        find (Genre.hasId id) (genres s') = find (Genre.hasId id) (genres s)).
Proof.
  split; intros B N s'; subst s'.
  - rewrite (author_delete_post_free s req B). cbn [fst authors]. split.
    + apply (find_deleteOne_same a_id _ (authorid (body req))); [|exact N].
      intros x. apply author_hasId_iff.
    + intros id D. apply find_deleteOne_other.
      intros x Q. unfold Author.hasId in *. now apply (hasId_other id).
  - rewrite (genre_delete_post_free s req B). cbn [fst genres]. split.
    + apply (find_deleteOne_same g_id _ (genreid (body req))); [|exact N].
      intros x. apply genre_hasId_iff.
    + intros id D. apply find_deleteOne_other.
      intros x Q. unfold Genre.hasId in *. now apply (hasId_other id).
Qed.

(** ** Round trips through the store *)

Section RoundTrips.
Context `{Collaborators}.

Lemma project_title_summary (b : BookDoc) :
  Book.project ["title"; "summary"] b =
    mkBookView (b_id b) (Some (b_title b)) (Some (b_summary b)).
Proof. reflexivity. Qed.

Lemma project_title_sumarry (b : BookDoc) :
  Book.project ["title"; "sumarry"] b = mkBookView (b_id b) (Some (b_title b)) None.
Proof. reflexivity. Qed.

Lemma author_detail_present (s : Store) (req : Request) (a : AuthorDoc) :
  find (Author.hasId (params_id req)) (authors s) = Some a ->
  handle (author_detail req) s =
    (s, [Author_findById (params_id req);
         Book_find_author (params_id req) ["title"; "summary"];
         res_render "author_detail"
           (author_detail_locals "Author detail" (Some a)
              (map (fun b => mkBookView (b_id b) (Some (b_title b))
                               (Some (b_summary b)))
                 (books_of_author s (params_id req))))]).
Proof. intros F. unfold author_detail. run. rewrite F. reflexivity. Qed.

Lemma genre_detail_present (s : Store) (req : Request) (g : GenreDoc) :
  find (Genre.hasId (params_id req)) (genres s) = Some g ->
  handle (genre_detail req) s =
    (s, [Genre_findById (params_id req);
         Book_find_genre (params_id req) ["title"; "summary"];
         res_render "genre_detail"
           (genre_detail_locals "Genre Detail" (Some g)
              (map (fun b => mkBookView (b_id b) (Some (b_title b))
                               (Some (b_summary b)))
                 (books_of_genre s (params_id req))))]).
Proof. intros F. unfold genre_detail. run. rewrite F. reflexivity. Qed.

(** X16: create then detail.  After a Genre (resp. Author) create
    submission that passes validation, finds no document with its natural
    key and gets a new identifier, the detail page of that identifier
    renders the document just stored, with the Books that reference the
    identifier, each with its title and summary. *)
Theorem create_post_then_detail (s : Store) (req req' : Request) :
  params_id req' = generated_id req ->
  (snd (genre_create_chain (name (body req))) = [] ->
   find (Genre.hasName (genre_key req)) (genres s) = None ->
   find (Genre.hasId (generated_id req)) (genres s) = None ->
   let s' := fst (handle (genre_create_post req) s) in
   handle (genre_detail req') s' =
     (s', [Genre_findById (generated_id req);
           Book_find_genre (generated_id req) ["title"; "summary"];
           res_render "genre_detail"
             (genre_detail_locals "Genre Detail"
                (Some (mkGenre (generated_id req) (escape (trim (name (body req))))))
                (map (fun b => mkBookView (b_id b) (Some (b_title b))
                                 (Some (b_summary b)))
                   (books_of_genre s (generated_id req))))]))
  /\
  (author_errors (body req) = [] ->
   let cand := new_Author (generated_id req) (body req) in
   find (Author.hasName (a_first_name cand) (a_family_name cand)) (authors s) = None ->
   find (Author.hasId (generated_id req)) (authors s) = None ->
   let s' := fst (handle (author_create_post req) s) in
   handle (author_detail req') s' =
     (s', [Author_findById (generated_id req);
           Book_find_author (generated_id req) ["title"; "summary"];
           res_render "author_detail"
             (author_detail_locals "Author detail" (Some cand)
                (map (fun b => mkBookView (b_id b) (Some (b_title b))
                                 (Some (b_summary b)))
                   (books_of_author s (generated_id req))))])).
Proof.
  intros P. split.
  - intros V F I s'. subst s'.
    rewrite (genre_create_post_new s req V F I). cbn [fst].
    rewrite (genre_detail_present _ req'
               (mkGenre (generated_id req) (genre_key req))).
    + rewrite P. reflexivity.
    + rewrite P. cbn [genres]. apply find_app_absent; [exact I|].
      now apply genre_hasId_iff.
  - intros V cand F I s'. subst s'.
    rewrite (author_create_post_new s req V F I). cbn [fst].
    rewrite (author_detail_present _ req' cand).
    + rewrite P. reflexivity.
    + rewrite P. cbn [authors]. apply find_app_absent; [exact I|].
      now apply author_hasId_iff.
Qed.

(** X17: update then show the update form.  After an update submission
    that passes validation, for a route identifier that names a stored
    document, the update form of that identifier is rendered once, filled
    with the candidate of the submission: the route identifier and the
    sanitized submitted values. *)
Theorem update_post_then_update_get (s : Store) (req req' : Request) :
  params_id req' = params_id req ->
  (author_errors (body req) = [] ->
   forall old, find (Author.hasId (params_id req)) (authors s) = Some old ->
   let s' := fst (handle (author_update_post req) s) in
   handle (author_update_get req') s' =
     (s', [Author_findById (params_id req);
           res_render "author_form"
             (author_form_locals "Update Author"
                (Some (new_Author (params_id req) (body req))) None)]))
  /\
  (snd (genre_update_chain (name (body req))) = [] ->
   forall old, find (Genre.hasId (params_id req)) (genres s) = Some old ->
   let s' := fst (handle (genre_update_post req) s) in
   handle (genre_update_get req') s' =
     (s', [Genre_findById (params_id req);
           res_render "genre_form"
             (genre_form_locals "Update Genre"
                (Some (mkGenre (params_id req) (escape (trim (name (body req))))))
                None)])).
Proof.
  intros P. split.
  - intros V old F s'. subst s'.
    rewrite (author_update_post_accepted s req V). cbn [fst].
    unfold author_update_get. run. cbn [authors]. rewrite P.
    rewrite (updateOne_find _ _ old _ F); [reflexivity|].
    now apply author_hasId_iff.
  - intros V old F s'. subst s'.
    rewrite (genre_update_post_found s req old V F). cbn [fst].
    unfold genre_update_get. run. cbn [genres]. rewrite P.
    rewrite (updateOne_find _ _ old _ F); [reflexivity|].
    now apply genre_hasId_iff.
Qed.

(** X18: a failure of the store is not caught by the create handlers.  When
    the insert is refused because the generated identifier is in use, the
    error is handed to [next] by the async wrapper; no redirect or render
    is issued and the store is unchanged. *)
Theorem create_post_store_failure (s : Store) (req : Request) :
  (snd (genre_create_chain (name (body req))) = [] ->
   find (Genre.hasName (genre_key req)) (genres s) = None ->
   forall g, find (Genre.hasId (generated_id req)) (genres s) = Some g ->
   handle (genre_create_post req) s =
     (s, [Genre_findOne (genre_key req);
          Genre_save (mkGenre (generated_id req) (genre_key req));
          next (MongoServerError 11000)]))
  /\
  (author_errors (body req) = [] ->
   let cand := new_Author (generated_id req) (body req) in
   find (Author.hasName (a_first_name cand) (a_family_name cand)) (authors s) = None ->
   forall a, find (Author.hasId (generated_id req)) (authors s) = Some a ->
   handle (author_create_post req) s =
     (s, [Author_findOne (a_first_name cand) (a_family_name cand);
          Author_save cand; next (MongoServerError 11000)])).
Proof.
  split.
  - intros V F g I. now apply genre_create_post_collision_trace with (g := g).
  - intros V cand F a I. now apply author_create_post_collision with (a := a).
Qed.

End RoundTrips.

(** ** Present entities *)

(** X19: the six GET handlers that take an identifier, on an identifier
    that names a stored document, make one call on [res]: the render of
    their view with that document (no redirect, no error).  The detail and
    delete views of an Author and the detail view of a Genre list the
    referencing Books with title and summary; the delete view of a Genre
    lists them with the title only, its projection naming a path
    [sumarry] that Books do not have. *)
Theorem present_entity_views (s : Store) (req : Request) :
  (forall a, find (Author.hasId (params_id req)) (authors s) = Some a ->
     let listed :=
       map (fun b => mkBookView (b_id b) (Some (b_title b)) (Some (b_summary b)))
         (books_of_author s (params_id req)) in
     handle (author_detail req) s =
       (s, [Author_findById (params_id req);
            Book_find_author (params_id req) ["title"; "summary"];
            res_render "author_detail"
              (author_detail_locals "Author detail" (Some a) listed)])
     /\ handle (author_delete_get req) s =
          (s, [Author_findById (params_id req);
               Book_find_author (params_id req) ["title"; "summary"];
               res_render "author_delete"
                 (author_delete_locals "Delete Author" (Some a) listed)])
     /\ handle (author_update_get req) s =
          (s, [Author_findById (params_id req);
               res_render "author_form"
                 (author_form_locals "Update Author" (Some a) None)]))
  /\
  (forall g, find (Genre.hasId (params_id req)) (genres s) = Some g ->
     handle (genre_detail req) s =
       (s, [Genre_findById (params_id req);
            Book_find_genre (params_id req) ["title"; "summary"];
            res_render "genre_detail"
              (genre_detail_locals "Genre Detail" (Some g)
                 (map (fun b => mkBookView (b_id b) (Some (b_title b))
                                  (Some (b_summary b)))
                    (books_of_genre s (params_id req))))])
     /\ handle (genre_delete_get req) s =
          (s, [Genre_findById (params_id req);
               Book_find_genre (params_id req) ["title"; "sumarry"];
               res_render "genre_delete"
                 (genre_delete_locals "Delete Genre" (Some g)
                    (map (fun b => mkBookView (b_id b) (Some (b_title b)) None)
                       (books_of_genre s (params_id req))))])
     /\ handle (genre_update_get req) s =
          (s, [Genre_findById (params_id req);
               res_render "genre_form"
                 (genre_form_locals "Update Genre" (Some g) None)])).
Proof.
  split.
  - intros a F listed. subst listed.
    unfold author_detail, author_delete_get, author_update_get.
    repeat split; run; rewrite F; reflexivity.
  - intros g F.
    unfold genre_detail, genre_delete_get, genre_update_get.
    repeat split; run; rewrite F; reflexivity.
Qed.

(** ** The further statements on sample requests *)

Lemma post_handlers_frame_witness :
  books (fst (handle (author_delete_post (post_delete 1 2 5)) catalogue)) =
    books catalogue
  /\ authors (fst (handle (genre_update_post (post_genre "Epic" 5 0)) catalogue)) =
       authors catalogue.
Proof.
  destruct (post_handlers_frame catalogue (post_delete 1 2 5)) as [A _].
  destruct (post_handlers_frame catalogue (post_genre "Epic" 5 0)) as [_ G].
  split.
  - apply A. right. now left.
  - apply G. right. right. now left.
Defined.

Lemma accepted_author_names_witness :
  a_first_name (new_Author 7 (body (post_author " Ann " "Lee" "" "" 0 0))) = "Ann"
  /\ a_family_name (new_Author 7 (body (post_author " Ann " "Lee" "" "" 0 0))) = "Lee".
Proof.
  destruct (accepted_author_names (body (post_author " Ann " "Lee" "" "" 0 0)) 7
              eq_refl) as (F & L & _).
  split; [exact F | exact L].
Defined.

Lemma author_names_stay_valid_witness :
  Forall (fun a => validName (a_first_name a) /\ validName (a_family_name a))
    (authors (fst (handle (author_update_post (post_author "Rob" "Roy" "" "" 2 0))
                     catalogue))).
Proof.
  apply (author_names_stay_valid catalogue (post_author "Rob" "Roy" "" "" 2 0)).
  - right. now left.
  - repeat constructor; discriminate.
Defined.

Lemma genre_names_stay_long_witness :
  Forall (fun g => 3 <= String.length (g_name g))
    (genres (fst (handle (genre_create_post (post_genre "Epic" 0 7)) catalogue))).
Proof.
  apply (genre_names_stay_long catalogue (post_genre "Epic" 0 7)).
  - now left.
  - repeat constructor; simpl; lia.
Defined.

Lemma genre_names_stay_escaped_witness :
  Forall (fun g => anyChar isMarkup (g_name g) = false)
    (genres (fst (handle (genre_create_post (post_genre "<b>Epic</b>" 0 7))
                    catalogue))).
Proof.
  apply (genre_names_stay_escaped catalogue (post_genre "<b>Epic</b>" 0 7)).
  - now left.
  - repeat constructor.
Defined.

Lemma identifiers_stay_unique_witness :
  NoDup (map a_id (authors (fst (handle
           (author_create_post (post_author "Cy" "Orr" "" "" 0 11)) catalogue))))
  /\ NoDup (map g_id (genres (fst (handle
              (genre_delete_post (post_delete 6 0 6)) catalogue)))).
Proof.
  destruct (identifiers_stay_unique catalogue
              (post_author "Cy" "Orr" "" "" 0 11)) as [A _].
  destruct (identifiers_stay_unique catalogue (post_delete 6 0 6)) as [_ G].
  split.
  - apply A; [now left|].
    repeat constructor; cbn [In]; intros K;
      repeat (destruct K as [K|K]; try discriminate K); exact K.
  - apply G; [right; right; now left|].
    repeat constructor; cbn [In]; intros K;
      repeat (destruct K as [K|K]; try discriminate K); exact K.
Defined.


Lemma delete_post_absent_target_witness :
  handle (author_delete_post (post_delete 1 3 3)) catalogue =
    (catalogue,
     [Author_findById 1; Book_find_author 1 ["title"; "summary"];
      Author_findByIdAndDelete 3; res_redirect "/catalog/authors"])
  /\ handle (genre_delete_post (post_delete 6 3 3)) catalogue =
       (catalogue,
        [Genre_findById 6; Book_find_genre 6 ["title"; "sumarry"];
         Genre_findByIdAndDelete 3; res_redirect "/catalog/genres"]).
Proof.
  destruct (delete_post_absent_target catalogue (post_delete 1 3 3)) as [A _].
  destruct (delete_post_absent_target catalogue (post_delete 6 3 3)) as [_ G].
  split; [exact (A eq_refl eq_refl) | exact (G eq_refl eq_refl)].
Defined.

Lemma delete_post_then_lookup_witness :
  find (Author.hasId 1)
    (authors (fst (handle (author_delete_post (post_delete 1 1 6)) catalogue))) = None
  /\ find (Genre.hasId 5)
       (genres (fst (handle (genre_delete_post (post_delete 1 1 6)) catalogue))) =
       Some (mkGenre 5 "Fantasy").
Proof.
  destruct (delete_post_then_lookup catalogue (post_delete 1 1 6)) as [A G].
  assert (NA : NoDup (map a_id (authors catalogue))).
  { repeat constructor; cbn [In]; intros K;
      repeat (destruct K as [K|K]; try discriminate K); exact K. }
  assert (NG : NoDup (map g_id (genres catalogue))).
  { repeat constructor; cbn [In]; intros K;
      repeat (destruct K as [K|K]; try discriminate K); exact K. }
  destruct (A eq_refl NA) as [A1 _].
  destruct (G eq_refl NG) as [_ G2].
  split; [exact A1|].
  rewrite (G2 5%N); [reflexivity | discriminate].
Defined.

Lemma create_post_then_detail_witness :
  snd (handle (genre_detail (get 7))
         (fst (handle (genre_create_post (post_genre " Epic " 0 7)) catalogue))) =
    [Genre_findById 7; Book_find_genre 7 ["title"; "summary"];
     res_render "genre_detail"
       (genre_detail_locals "Genre Detail" (Some (mkGenre 7 "Epic")) [])]
  /\ snd (handle (author_detail (get 7))
            (fst (handle (author_create_post (post_author "Cy" "Orr" "" "" 0 7))
                    catalogue))) =
       [Author_findById 7; Book_find_author 7 ["title"; "summary"];
        res_render "author_detail"
          (author_detail_locals "Author detail"
             (Some (mkAuthor 7 "Cy" "Orr" None None)) [])].
Proof.
  destruct (create_post_then_detail catalogue (post_genre " Epic " 0 7) (get 7)
              eq_refl) as [G _].
  destruct (create_post_then_detail catalogue (post_author "Cy" "Orr" "" "" 0 7)
              (get 7) eq_refl) as [_ A].
  split.
  - now rewrite (G eq_refl eq_refl eq_refl).
  - now rewrite (A eq_refl eq_refl eq_refl).
Defined.

Lemma update_post_then_update_get_witness :
  snd (handle (author_update_get (get 2))
         (fst (handle (author_update_post (post_author "Rob" "Roy" "" "" 2 0))
                 catalogue))) =
    [Author_findById 2;
     res_render "author_form"
       (author_form_locals "Update Author"
          (Some (mkAuthor 2 "Rob" "Roy" None None)) None)]
  /\ snd (handle (genre_update_get (get 5))
            (fst (handle (genre_update_post (post_genre "Epic" 5 0)) catalogue))) =
       [Genre_findById 5;
        res_render "genre_form"
          (genre_form_locals "Update Genre" (Some (mkGenre 5 "Epic")) None)].
Proof.
  destruct (update_post_then_update_get catalogue
              (post_author "Rob" "Roy" "" "" 2 0) (get 2) eq_refl) as [A _].
  destruct (update_post_then_update_get catalogue (post_genre "Epic" 5 0) (get 5)
              eq_refl) as [_ G].
  split.
  - now rewrite (A eq_refl (mkAuthor 2 "Bob" "Ray" None None) eq_refl).
  - now rewrite (G eq_refl (mkGenre 5 "Fantasy") eq_refl).
Defined.

Lemma create_post_store_failure_witness :
  handle (genre_create_post (post_genre "Epic" 0 5)) catalogue =
    (catalogue,
     [Genre_findOne "Epic"; Genre_save (mkGenre 5 "Epic");
      next (MongoServerError 11000)])
  /\ handle (author_create_post (post_author "Cy" "Orr" "" "" 0 2)) catalogue =
       (catalogue,
        [Author_findOne "Cy" "Orr"; Author_save (mkAuthor 2 "Cy" "Orr" None None);
         next (MongoServerError 11000)]).
Proof.
  destruct (create_post_store_failure catalogue (post_genre "Epic" 0 5)) as [G _].
  destruct (create_post_store_failure catalogue
              (post_author "Cy" "Orr" "" "" 0 2)) as [_ A].
  split.
  - exact (G eq_refl eq_refl (mkGenre 5 "Fantasy") eq_refl).
  - exact (A eq_refl eq_refl (mkAuthor 2 "Bob" "Ray" None None) eq_refl).
Defined.

Lemma present_entity_views_witness :
  handle (author_delete_get (get 2)) catalogue =
    (catalogue,
     [Author_findById 2; Book_find_author 2 ["title"; "summary"];
      res_render "author_delete"
        (author_delete_locals "Delete Author"
           (Some (mkAuthor 2 "Bob" "Ray" None None))
           [mkBookView 9 (Some "Dune") (Some "Sand")])])
  /\ handle (genre_delete_get (get 5)) catalogue =
       (catalogue,
        [Genre_findById 5; Book_find_genre 5 ["title"; "sumarry"];
         res_render "genre_delete"
           (genre_delete_locals "Delete Genre" (Some (mkGenre 5 "Fantasy"))
              [mkBookView 9 (Some "Dune") None])]).
Proof.
  destruct (present_entity_views catalogue (get 2)) as [A _].
  destruct (present_entity_views catalogue (get 5)) as [_ G].
  destruct (A (mkAuthor 2 "Bob" "Ray" None None) eq_refl) as (_ & D & _).
  destruct (G (mkGenre 5 "Fantasy") eq_refl) as (_ & D' & _).
  split; [exact D | exact D'].
Defined.

Lemma sanitized_name_spec_witness :
  sanitize "  <b>R&B</b> " = "&lt;b&gt;R&amp;B&lt;&#x2F;b&gt;"
  /\ isSpace "&" = false /\ isSpace ";" = false
  /\ sanitize (String "009" "  ") = "".
Proof.
  destruct (sanitized_name_spec "  <b>R&B</b> ") as (_ & F & L & _).
  destruct (sanitized_name_spec (String "009" "  ")) as (_ & _ & _ & _ & _ & E).
  split; [reflexivity|].
  split; [apply F; reflexivity|].
  split; [apply L; reflexivity|].
  apply E. reflexivity.
Defined.

Lemma sanitize_twice_witness :
  sanitize (sanitize " Epic ") = sanitize " Epic "
  /\ String.length (sanitize " R&B ") < String.length (sanitize (sanitize " R&B ")).
Proof.
  destruct (sanitize_twice " Epic ") as [[_ S] _].
  destruct (sanitize_twice " R&B ") as [_ G].
  split; [apply S; reflexivity | apply G; reflexivity].
Defined.
